(** * propsearch: the housing search agent of [housing_search.py]

    A shallow embedding of the listing extraction and matching pipeline
    ([construct_search_url], [_process_housing_results],
    [_matches_criteria], [_construct_response], [search_housing]) and the
    properties its specification states about it. *)

From Stdlib Require Import String Ascii ZArith NArith Bool Lia List.
From Stdlib Require Import Floats.SpecFloat.
From Stdlib Require DecimalPos.
Import ListNotations.

(** ** Python strings

    A Python [str] is a sequence of Unicode code points. *)

Definition char := N.
Definition str := list char.

(** An ASCII literal as a [str]. *)
Definition lit (s : string) : str := map N_of_ascii (list_ascii_of_string s).

Definition nl : char := 10%N.          (* "\n" *)
Definition sup2 : char := 178%N.       (* U+00B2, superscript two *)
Definition ae : char := 230%N.         (* U+00E6, latin small letter ae *)

Definition str_eqb (a b : str) : bool :=
  if list_eq_dec N.eq_dec a b then true else false.

(** [a < b] on strings: lexicographic on code points. *)
Fixpoint str_compare (a b : str) : comparison :=
  match a, b with
  | [], [] => Eq
  | [], _ :: _ => Lt
  | _ :: _, [] => Gt
  | x :: a', y :: b' =>
      match N.compare x y with
      | Eq => str_compare a' b'
      | c => c
      end
  end.

(** [prefix.startswith]. *)
Fixpoint startswith (prefix s : str) : bool :=
  match prefix, s with
  | [], _ => true
  | _ :: _, [] => false
  | p :: prefix', c :: s' => N.eqb p c && startswith prefix' s'
  end.

(** [needle in s] for two strings. *)
Fixpoint str_contains (needle s : str) : bool :=
  startswith needle s ||
  match s with
  | [] => false
  | _ :: s' => str_contains needle s'
  end.

(** [s.replace(old, new)] for one-character [old]. *)
Definition replace_char (old : char) (new : str) (s : str) : str :=
  flat_map (fun c => if N.eqb c old then new else [c]) s.

(** [s.split(sep)] for a one-character separator: never empty. *)
Fixpoint split (sep : char) (s : str) : list str :=
  match s with
  | [] => [[]]
  | c :: s' =>
      if N.eqb c sep then [] :: split sep s'
      else match split sep s' with
           | [] => [[c]]
           | piece :: pieces => (c :: piece) :: pieces
           end
  end.

(** [sep.join(parts)]. *)
Fixpoint join (sep : str) (parts : list str) : str :=
  match parts with
  | [] => []
  | [p] => p
  | p :: rest => p ++ sep ++ join sep rest
  end.

(** Decimal digits of an integer, as [str(n)] prints them. *)
Fixpoint uint_digits (d : Decimal.uint) : str :=
  match d with
  | Decimal.Nil => []
  | Decimal.D0 d' => 48%N :: uint_digits d'
  | Decimal.D1 d' => 49%N :: uint_digits d'
  | Decimal.D2 d' => 50%N :: uint_digits d'
  | Decimal.D3 d' => 51%N :: uint_digits d'
  | Decimal.D4 d' => 52%N :: uint_digits d'
  | Decimal.D5 d' => 53%N :: uint_digits d'
  | Decimal.D6 d' => 54%N :: uint_digits d'
  | Decimal.D7 d' => 55%N :: uint_digits d'
  | Decimal.D8 d' => 56%N :: uint_digits d'
  | Decimal.D9 d' => 57%N :: uint_digits d'
  end.

Definition str_of_N (n : N) : str :=
  match n with
  | N0 => lit "0"
  | Npos p => uint_digits (Pos.to_uint p)
  end.

Definition str_of_Z (z : Z) : str :=
  match z with
  | Z0 => lit "0"
  | Zpos p => uint_digits (Pos.to_uint p)
  | Zneg p => lit "-" ++ uint_digits (Pos.to_uint p)
  end.

(** ** Exceptions *)

Inductive exn := TypeError | ValueError | AttributeError | OverflowError.

Inductive result (A : Type) : Type :=
| Ok (a : A)
| Raise (e : exn).
Arguments Ok {A} a.
Arguments Raise {A} e.

Definition bind {A B} (m : result A) (k : A -> result B) : result B :=
  match m with
  | Ok a => k a
  | Raise e => Raise e
  end.

Notation "x <- m ;; k" := (bind m (fun x => k))
  (at level 61, m at next level, right associativity).

(** ** Python values

    The values that flow through the pipeline: the fields of a criteria
    object (the dataclass does not validate what the JSON payload
    carried), the text and links of a crawled fragment, and the entries of
    a listing dict are [None], booleans, integers, floats or strings. *)

Inductive pyval :=
| PNone
| PBool (b : bool)
| PInt (z : Z)
| PFloat (f : spec_float)
| PStr (s : str).

(** Floats are IEEE 754 binary64. *)
Definition prec : Z := 53.
Definition emax : Z := 1024.

(** The float nearest to an integer (round to nearest, ties to even;
    infinite past the largest finite float). *)
Definition float_of_Z (z : Z) : spec_float := binary_normalize prec emax z 0 false.

(** [bool(v)]. *)
Definition py_bool (v : pyval) : bool :=
  match v with
  | PNone => false
  | PBool b => b
  | PInt z => negb (Z.eqb z 0)
  | PFloat (S754_zero _) => false
  | PFloat _ => true
  | PStr s => match s with [] => false | _ => true end
  end.

(** Comparing a float with an integer is exact in Python: the float is
    not converted, its value [(-1)^s * m * 2^e] is compared. *)
Definition float_compare_int (f : spec_float) (z : Z) : option comparison :=
  match f with
  | S754_nan => None
  | S754_infinity s => Some (if s then Lt else Gt)
  | S754_zero _ => Some (Z.compare 0 z)
  | S754_finite s m e =>
      let sm := cond_Zopp s (Zpos m) in
      Some (if Z.leb 0 e then Z.compare (sm * 2 ^ e) z
            else Z.compare sm (z * 2 ^ (- e)))%Z
  end.

Inductive number := NumInt (z : Z) | NumFloat (f : spec_float).

(** [bool] is a subclass of [int]. *)
Definition as_number (v : pyval) : option number :=
  match v with
  | PBool b => Some (NumInt (Z.b2z b))
  | PInt z => Some (NumInt z)
  | PFloat f => Some (NumFloat f)
  | _ => None
  end.

(** [None] when a NaN makes the operands unordered. *)
Definition number_compare (a b : number) : option comparison :=
  match a, b with
  | NumInt x, NumInt y => Some (Z.compare x y)
  | NumFloat f, NumInt y => float_compare_int f y
  | NumInt x, NumFloat g => option_map CompOpp (float_compare_int g x)
  | NumFloat f, NumFloat g => SFcompare f g
  end.

(** Ordering of two values: numbers with numbers, strings with strings,
    [TypeError] otherwise. *)
Definition py_compare (a b : pyval) : result (option comparison) :=
  match a, b with
  | PStr x, PStr y => Ok (Some (str_compare x y))
  | _, _ =>
      match as_number a, as_number b with
      | Some x, Some y => Ok (number_compare x y)
      | _, _ => Raise TypeError
      end
  end.

(** [a > b] and [a < b]. *)
Definition py_gt (a b : pyval) : result bool :=
  c <- py_compare a b ;;
  Ok (match c with Some Gt => true | _ => false end).

Definition py_lt (a b : pyval) : result bool :=
  c <- py_compare a b ;;
  Ok (match c with Some Lt => true | _ => false end).

(** ** Dicts with string keys *)

Definition dict := list (str * pyval).

Fixpoint dict_lookup (d : dict) (k : str) : option pyval :=
  match d with
  | [] => None
  | (k', v) :: d' => if str_eqb k' k then Some v else dict_lookup d' k
  end.

(** [d.get(k, default)] and [d.get(k)]. *)
Definition dict_get_default (d : dict) (k : str) (default : pyval) : pyval :=
  match dict_lookup d k with
  | Some v => v
  | None => default
  end.

Definition dict_get (d : dict) (k : str) : pyval := dict_get_default d k PNone.

(** ** The criteria model *)

Record HousingCriteria := {
  location : pyval;
  max_price : pyval;
  min_bedrooms : pyval;
  property_type : pyval;
  min_size_m2 : pyval;
  max_size_m2 : pyval;
  furnished : pyval;
  immediate_availability : pyval;
  pets_allowed : pyval
}.

(** The dataclass constructor with its defaults. *)
Definition mkCriteria (loc max_p min_b : pyval) : HousingCriteria :=
  {| location := loc; max_price := max_p; min_bedrooms := min_b;
     property_type := PStr (lit "all");
     min_size_m2 := PNone; max_size_m2 := PNone; furnished := PNone;
     immediate_availability := PNone; pets_allowed := PNone |}.

(** ** The criteria matcher *)

(** The body of the [try] in [_matches_criteria]. *)
Definition matches_criteria_body (listing : dict) (criteria : HousingCriteria)
  : result bool :=
  let price := dict_get listing (lit "price_dkk") in
  let bedrooms := dict_get listing (lit "bedrooms") in
  let loc := dict_get listing (lit "location") in
  if negb (forallb py_bool [price; bedrooms; loc]) then Ok false
  else
    over <- py_gt price (max_price criteria) ;;
    if over then Ok false
    else
      under <- py_lt bedrooms (min_bedrooms criteria) ;;
      if under then Ok false else Ok true.

(** [except Exception: return False]. *)
Definition _matches_criteria (listing : dict) (criteria : HousingCriteria) : bool :=
  match matches_criteria_body listing criteria with
  | Ok b => b
  | Raise _ => false
  end.

(** ** What the interpreter provides

    The Unicode database and the float printer belong to the Python
    runtime, not to this program; the model takes them as given. *)

Record runtime := {
  (** the digit value of a code point of category Nd ([\d], [int], [float]) *)
  uni_decimal : char -> option Z;
  (** the code points [\s] matches *)
  uni_isspace : char -> bool;
  (** the simple lower-case mapping [re.IGNORECASE] compares through *)
  uni_tolower : char -> char;
  (** [str.lower] *)
  str_lower : str -> str;
  (** [repr] of a float, which is also its [str] *)
  float_repr : spec_float -> str
}.

(** [str(v)], which is also what an f-string field without a format
    specification prints. *)
Definition py_str (rt : runtime) (v : pyval) : str :=
  match v with
  | PNone => lit "None"
  | PBool true => lit "True"
  | PBool false => lit "False"
  | PInt z => str_of_Z z
  | PFloat f => float_repr rt f
  | PStr s => s
  end.

(** [v != "..."] against a string. *)
Definition py_ne_str (v : pyval) (s : str) : bool :=
  match v with
  | PStr t => negb (str_eqb t s)
  | _ => true
  end.

(** [v.lower()]: only strings have the method. *)
Definition py_lower (rt : runtime) (v : pyval) : result str :=
  match v with
  | PStr s => Ok (str_lower rt s)
  | _ => Raise AttributeError
  end.

(** [v.startswith(prefix)]. *)
Definition py_startswith (v : pyval) (prefix : str) : result bool :=
  match v with
  | PStr s => Ok (startswith prefix s)
  | _ => Raise AttributeError
  end.

(** [needle in v]: a substring test on a string, [TypeError] on the other
    values (none of them is iterable). *)
Definition py_in (needle : str) (v : pyval) : result bool :=
  match v with
  | PStr s => Ok (str_contains needle s)
  | _ => Raise TypeError
  end.

(** The value of a run of decimal digits. *)
Definition digits_value (rt : runtime) (s : str) : option Z :=
  fold_left
    (fun acc c =>
       match acc, uni_decimal rt c with
       | Some a, Some d => Some (10 * a + d)%Z
       | _, _ => None
       end)
    s (Some 0%Z).

(** [int(s)] and [float(s)] on what the patterns below capture: a run of
    decimal digits, or nothing at all once the separators are removed.
    Every other string is classed as a [ValueError]. *)
Definition py_int (rt : runtime) (s : str) : result Z :=
  match s with
  | [] => Raise ValueError
  | _ => match digits_value rt s with
         | Some z => Ok z
         | None => Raise ValueError
         end
  end.

Definition py_float (rt : runtime) (s : str) : result spec_float :=
  z <- py_int rt s ;; Ok (float_of_Z z).

(** ** Regular expressions

    A backtracking matcher in the order [re] tries alternatives: [run r s]
    lists what is left of [s] after each way [r] can match a prefix of it,
    first choice first. *)

Inductive regex :=
| Eps
| Chr (p : char -> bool)
| Seq (r1 r2 : regex)
| Alt (r1 r2 : regex)
| Star (r : regex).

(** Greedy repetition: one more round first, stopping last. A round that
    consumes nothing ends the repetition. *)
Fixpoint star_run (step : str -> list str) (fuel : nat) (s : str) : list str :=
  match fuel with
  | O => [s]
  | S fuel' =>
      flat_map
        (fun s' => if Nat.ltb (length s') (length s)
                   then star_run step fuel' s' else [])
        (step s)
      ++ [s]
  end.

Fixpoint run (r : regex) (s : str) : list str :=
  match r with
  | Eps => [s]
  | Chr p => match s with
             | c :: s' => if p c then [s'] else []
             | [] => []
             end
  | Seq r1 r2 => flat_map (run r2) (run r1 s)
  | Alt r1 r2 => run r1 s ++ run r2 s
  | Star r' => star_run (run r') (length s) s
  end.

Definition plus (r : regex) : regex := Seq r (Star r).      (* r+ *)
Definition opt (r : regex) : regex := Alt r Eps.            (* r? *)
Definition seqs (rs : list regex) : regex := fold_right Seq Eps rs.

(** A literal character, and a literal word, matched exactly. *)
Definition exact (c : char) : regex := Chr (N.eqb c).
Definition word (w : str) : regex := seqs (map exact w).

(** The entries of [re]'s case-fix table for ASCII letters: besides their
    own upper and lower case, [i] also matches the dotless i and [s] the
    long s. *)
Definition case_fixes (lo : char) : list char :=
  if N.eqb lo 105%N then [305%N]
  else if N.eqb lo 115%N then [383%N]
  else [].

(** A cased literal under [re.IGNORECASE]: the subject character is
    lower-cased and looked up among the literal's lower case and its case
    fixes. *)
Definition nocase (rt : runtime) (c : char) : regex :=
  let lo := uni_tolower rt c in
  Chr (fun x => existsb (N.eqb (uni_tolower rt x)) (lo :: case_fixes lo)).
Definition word_nocase (rt : runtime) (w : str) : regex := seqs (map (nocase rt) w).

Definition digit (rt : runtime) : regex :=
  Chr (fun c => match uni_decimal rt c with Some _ => true | None => false end).
Definition space (rt : runtime) : regex := Chr (uni_isspace rt).

(** The first way to match [group] and then [tail] at the start of [s],
    as the text [group] captured. *)
Fixpoint first_capture (tail : regex) (s : str) (ends : list str) : option str :=
  match ends with
  | [] => None
  | s' :: ends' =>
      match run tail s' with
      | _ :: _ => Some (firstn (length s - length s') s)
      | [] => first_capture tail s ends'
      end
  end.

Definition match_here (group tail : regex) (s : str) : option str :=
  first_capture tail s (run group s).

(** [re.search] for a pattern [(group)tail]: the leftmost match, reported
    as its [group(1)]; [None] when no position matches. *)
Fixpoint search (group tail : regex) (s : str) : option str :=
  match match_here group tail s with
  | Some g => Some g
  | None => match s with
            | [] => None
            | _ :: s' => search group tail s'
            end
  end.

(** [re.search(pattern, v)]: the subject has to be a string. *)
Definition re_search (group tail : regex) (v : pyval) : result (option str) :=
  match v with
  | PStr s => Ok (search group tail s)
  | _ => Raise TypeError
  end.

(** The three patterns of [_process_housing_results]. *)

(** [(\d+(?:,\d{3})*(?:\.\d{2})?)\s*(?:DKK|kr\.)] *)
Definition price_group (rt : runtime) : regex :=
  seqs [plus (digit rt);
        Star (seqs [exact 44%N; digit rt; digit rt; digit rt]);
        opt (seqs [exact 46%N; digit rt; digit rt])].
Definition price_tail (rt : runtime) : regex :=
  Seq (Star (space rt)) (Alt (word (lit "DKK")) (word (lit "kr."))).

(** [(\d+)\s*(?:room|rm|bedroom|værelser)] with [re.IGNORECASE] *)
Definition room_group (rt : runtime) : regex := plus (digit rt).
Definition room_tail (rt : runtime) : regex :=
  Seq (Star (space rt))
      (Alt (word_nocase rt (lit "room"))
      (Alt (word_nocase rt (lit "rm"))
      (Alt (word_nocase rt (lit "bedroom"))
           (word_nocase rt (lit "v" ++ [ae] ++ lit "relser"))))).

(** [(\d+)\s*m²] *)
Definition size_group (rt : runtime) : regex := plus (digit rt).
Definition size_tail (rt : runtime) : regex :=
  Seq (Star (space rt)) (word (lit "m" ++ [sup2])).

(** ** The search URL builder *)

Definition base_url : str := lit "https://www.boligportal.dk/en".

(** The [params] list of [construct_search_url]. *)
Definition search_params (rt : runtime) (criteria : HousingCriteria) : list str :=
  let params := [lit "max_monthly_rent=" ++ py_str rt (max_price criteria)] in
  let params :=
    if py_ne_str (property_type criteria) (lit "all")
    then params ++ [lit "housing_type=" ++ py_str rt (property_type criteria)]
    else params in
  if py_bool (min_size_m2 criteria)
  then params ++ [lit "min_size_m2=" ++ py_str rt (min_size_m2 criteria)]
  else params.

(** [if params: url += "/?" + "&".join(params)] *)
Definition attach_params (url : str) (params : list str) : str :=
  match params with
  | [] => url
  | _ :: _ => url ++ lit "/?" ++ join (lit "&") params
  end.

Definition construct_search_url (rt : runtime) (criteria : HousingCriteria)
  : result str :=
  lowered <- py_lower rt (location criteria) ;;
  let loc := replace_char 32%N (lit "-") lowered in
  let url := base_url ++ lit "/rental-properties/" ++ loc in
  let url := url ++ lit "/" ++ py_str rt (min_bedrooms criteria) ++ lit "-rooms" in
  Ok (attach_params url (search_params rt criteria)).

(** ** The listing extractor *)

(** One item of the crawl data: the values under its ["text"] and
    ["links"] keys, [None] for a key the item does not have. *)
Record fragment := {
  text : option pyval;
  links : option (list pyval)
}.

(** [next((link for link in links if "/rental-properties/" in link), None)] *)
Fixpoint find_link (links : list pyval) : result pyval :=
  match links with
  | [] => Ok PNone
  | link :: rest =>
      hit <- py_in (lit "/rental-properties/") link ;;
      if hit then Ok link else find_link rest
  end.

(** The price conversion, with its own [except ValueError: pass]. *)
Definition parse_price (rt : runtime) (price_match : option str) : result pyval :=
  match price_match with
  | None => Ok PNone
  | Some g =>
      let price_str := replace_char 46%N [] (replace_char 44%N [] g) in
      match py_float rt price_str with
      | Ok f => Ok (PFloat f)
      | Raise ValueError => Ok PNone
      | Raise e => Raise e
      end
  end.

Definition parse_rooms (rt : runtime) (room_match : option str) : result pyval :=
  match room_match with
  | None => Ok PNone
  | Some g => z <- py_int rt g ;; Ok (PInt z)
  end.

Definition parse_size (rt : runtime) (size_match : option str) : result pyval :=
  match size_match with
  | None => Ok PNone
  | Some g => f <- py_float rt g ;; Ok (PFloat f)
  end.

(** [text_content.split("\n")[0]] *)
Definition first_line (v : pyval) : result pyval :=
  match v with
  | PStr s => Ok (PStr (hd [] (split nl s)))
  | _ => Raise AttributeError
  end.

(** The statements of the loop body of [_process_housing_results] up to
    the test against the criteria. [None] is the [continue] on an empty
    text. Otherwise the result is the [listing] dict together with the
    final value of the local variable [listing_url], which the source
    rebinds after the dict has been built. *)
Definition extract_listing (rt : runtime) (criteria : HousingCriteria)
    (item : fragment) : result (option (dict * pyval)) :=
  let text_content := match text item with Some v => v | None => PStr [] end in
  let links := match links item with Some l => l | None => [] end in
  if negb (py_bool text_content) then Ok None
  else
    price_match <- re_search (price_group rt) (price_tail rt) text_content ;;
    room_match <- re_search (room_group rt) (room_tail rt) text_content ;;
    size_match <- re_search (size_group rt) (size_tail rt) text_content ;;
    price <- parse_price rt price_match ;;
    rooms <- parse_rooms rt room_match ;;
    size <- parse_size rt size_match ;;
    listing_url <- find_link links ;;
    title <- first_line text_content ;;
    let listing : dict :=
      [(lit "title", title);
       (lit "price_dkk", price);
       (lit "location", location criteria);
       (lit "size_m2", size);
       (lit "bedrooms", rooms);
       (lit "property_type", PStr (lit "apartment"));
       (lit "listing_url", listing_url)] in
    listing_url <-
      (if py_bool listing_url
       then absolute <- py_startswith listing_url (lit "http") ;;
            Ok (if negb absolute
                then PStr (base_url ++ py_str rt listing_url)
                else listing_url)
       else Ok listing_url) ;;
    Ok (Some (listing, listing_url)).

(** One round of the loop, inside its [try]. *)
Definition process_item (rt : runtime) (criteria : HousingCriteria)
    (listings : list dict) (item : fragment) : result (list dict) :=
  extracted <- extract_listing rt criteria item ;;
  match extracted with
  | None => Ok listings
  | Some (listing, _) =>
      if _matches_criteria listing criteria
      then Ok (listings ++ [listing])
      else Ok listings
  end.

(** [except Exception: continue] around every round. *)
Definition _process_housing_results (rt : runtime) (crawl_data : list fragment)
    (criteria : HousingCriteria) : list dict :=
  fold_left
    (fun listings item =>
       match process_item rt criteria listings item with
       | Ok listings' => listings'
       | Raise _ => listings
       end)
    crawl_data [].

(** ** The response formatter *)

(** The integer nearest to [m * 2^e], ties to even: what a precision of
    zero digits keeps of a float. *)
Definition round_half_even (m : positive) (e : Z) : Z :=
  (if Z.leb 0 e then Zpos m * 2 ^ e
   else
     let d := 2 ^ (- e) in
     let q := Zpos m / d in
     let r := Zpos m mod d in
     match Z.compare (2 * r) d with
     | Lt => q
     | Gt => q + 1
     | Eq => if Z.even q then q else q + 1
     end)%Z.

(** The [,] option: a comma between groups of three digits, counted from
    the right. [group_rev] works on the reversed digits. *)
Fixpoint group_rev (k : nat) (ds : str) : str :=
  match ds with
  | [] => []
  | d :: ds' =>
      if Nat.eqb k 3 then 44%N :: d :: group_rev 1 ds'
      else d :: group_rev (S k) ds'
  end.

Definition group_thousands (digits : str) : str := rev (group_rev 0 (rev digits)).

(** [format(f, ",.0f")] for a float. *)
Definition float_comma_0f (f : spec_float) : str :=
  match f with
  | S754_nan => lit "nan"
  | S754_infinity s => (if s then lit "-" else []) ++ lit "inf"
  | S754_zero s => (if s then lit "-" else []) ++ lit "0"
  | S754_finite s m e =>
      (if s then lit "-" else []) ++ group_thousands (str_of_Z (round_half_even m e))
  end.

(** [float(z)] for an integer: [OverflowError] past the largest float. *)
Definition float_of_int (z : Z) : result spec_float :=
  match float_of_Z z with
  | S754_infinity _ => Raise OverflowError
  | f => Ok f
  end.

(** [format(v, ",.0f")]: integers are converted to a float first, strings
    and [None] do not take the format. *)
Definition format_comma_0f (v : pyval) : result str :=
  match v with
  | PFloat f => Ok (float_comma_0f f)
  | PInt z => f <- float_of_int z ;; Ok (float_comma_0f f)
  | PBool b => f <- float_of_int (Z.b2z b) ;; Ok (float_comma_0f f)
  | PStr _ => Raise ValueError
  | PNone => Raise TypeError
  end.

Definition str_of_nat (n : nat) : str := str_of_N (N.of_nat n).

(** One round of the loop of [_construct_response]: the block of listing
    number [i], added to [response]. Each [listing[k]] is read under the
    guard [listing.get(k)], so the key is there. *)
Definition render_listing (rt : runtime) (i : nat) (listing : dict)
    (response : str) : result str :=
  let response :=
    response ++ str_of_nat i ++ lit ". "
    ++ py_str rt (dict_get_default listing (lit "title") (PStr (lit "Unlisted Property")))
    ++ [nl] in
  response <-
    (if py_bool (dict_get listing (lit "price_dkk"))
     then price <- format_comma_0f (dict_get listing (lit "price_dkk")) ;;
          Ok (response ++ lit "   Price: " ++ price ++ lit " DKK/month" ++ [nl])
     else Ok response) ;;
  let response :=
    if py_bool (dict_get listing (lit "size_m2"))
    then response ++ lit "   Size: " ++ py_str rt (dict_get listing (lit "size_m2"))
         ++ lit " m" ++ [sup2; nl]
    else response in
  let response :=
    if py_bool (dict_get listing (lit "bedrooms"))
    then response ++ lit "   Rooms: " ++ py_str rt (dict_get listing (lit "bedrooms"))
         ++ [nl]
    else response in
  let response :=
    if py_bool (dict_get listing (lit "listing_url"))
    then response ++ lit "   Link: " ++ py_str rt (dict_get listing (lit "listing_url"))
         ++ [nl]
    else response in
  Ok (response ++ [nl]).

(** [for i, listing in enumerate(listings, i): ...] *)
Fixpoint render_listings (rt : runtime) (i : nat) (listings : list dict)
    (response : str) : result str :=
  match listings with
  | [] => Ok response
  | listing :: rest =>
      response <- render_listing rt i listing response ;;
      render_listings rt (S i) rest response
  end.

Definition no_results : str :=
  lit "No available properties found matching your criteria. You can check for new listings at:"
  ++ [nl].

Definition found_header (n : nat) : str :=
  lit "Found " ++ str_of_nat n ++ lit " matching properties:" ++ [nl; nl].

(** [last_url] is the agent's [self.last_url]. *)
Definition _construct_response (rt : runtime) (last_url : pyval)
    (listings : list dict) : result str :=
  match listings with
  | [] => Ok (no_results ++ py_str rt last_url)
  | _ :: _ => render_listings rt 1 listings (found_header (length listings))
  end.

(** ** The agent *)

(** The two attributes the agent updates as it searches. *)
Record agent := {
  last_criteria : option HousingCriteria;
  last_url : pyval
}.

(** As [__init__] leaves them. *)
Definition new_agent : agent := {| last_criteria := None; last_url := PNone |}.

(** The two outside services: the language model behind [_parse_query]
    and the crawler behind [_perform_crawl]. *)
Record services := {
  _parse_query : str -> result HousingCriteria;
  _perform_crawl : str -> result (list fragment)
}.

(** The dict [_execute_search] returns: only a success has a
    ["listings"] entry. *)
Inductive search_result :=
| SearchSuccess (criteria : HousingCriteria) (listings : list dict) (search_url : str)
| SearchError (error : exn) (criteria : HousingCriteria) (search_url : str).

(** [search_results.get("listings", [])] *)
Definition result_listings (r : search_result) : list dict :=
  match r with
  | SearchSuccess _ listings _ => listings
  | SearchError _ _ _ => []
  end.

(** Building the URL happens before the [try]: its exception leaves the
    method, with the agent as it was. *)
Definition _execute_search (rt : runtime) (sv : services) (self : agent)
    (criteria : HousingCriteria) : result search_result * agent :=
  match construct_search_url rt criteria with
  | Raise e => (Raise e, self)
  | Ok search_url =>
      let self := {| last_criteria := last_criteria self;
                     last_url := PStr search_url |} in
      match _perform_crawl sv search_url with
      | Ok crawl_status =>
          let listings := _process_housing_results rt crawl_status criteria in
          (Ok (SearchSuccess criteria listings search_url), self)
      | Raise e => (Ok (SearchError e criteria search_url), self)
      end
  end.

Definition apology : str :=
  lit "Sorry, I encountered an error. You can try searching directly at: ".

(** The entry point: the response and the agent after the call. *)
Definition search_housing (rt : runtime) (sv : services) (self : agent)
    (query : str) : str * agent :=
  match _parse_query sv query with
  | Raise _ => (apology ++ py_str rt (last_url self), self)
  | Ok criteria =>
      let self := {| last_criteria := Some criteria; last_url := last_url self |} in
      match _execute_search rt sv self criteria with
      | (Raise _, self) => (apology ++ py_str rt (last_url self), self)
      | (Ok search_results, self) =>
          match _construct_response rt (last_url self) (result_listings search_results) with
          | Ok response => (response, self)
          | Raise _ => (apology ++ py_str rt (last_url self), self)
          end
      end
  end.

(** ** A runtime to run the model on

    Exact on the code points below 256: the digits are [0]-[9], the case
    mappings are those of ASCII and Latin-1, and floats that hold an
    integer below 10^16 print as that integer followed by [.0]. *)

Definition latin1_decimal (c : char) : option Z :=
  if (N.leb 48 c && N.leb c 57)%N then Some (Z.of_N c - 48)%Z else None.

Definition latin1_isspace (c : char) : bool :=
  ((N.leb 9 c && N.leb c 13) || (N.leb 28 c && N.leb c 32)
   || N.eqb c 133 || N.eqb c 160)%N.

Definition latin1_tolower (c : char) : char :=
  if ((N.leb 65 c && N.leb c 90)
      || (N.leb 192 c && N.leb c 222 && negb (N.eqb c 215)))%N
  then (c + 32)%N else c.

Definition whole_float_repr (f : spec_float) : str :=
  match f with
  | S754_nan => lit "nan"
  | S754_infinity s => (if s then lit "-" else []) ++ lit "inf"
  | S754_zero s => (if s then lit "-" else []) ++ lit "0.0"
  | S754_finite s m e =>
      (if s then lit "-" else []) ++ str_of_Z (round_half_even m e) ++ lit ".0"
  end.

Definition latin1_runtime : runtime :=
  {| uni_decimal := latin1_decimal;
     uni_isspace := latin1_isspace;
     uni_tolower := latin1_tolower;
     str_lower := map latin1_tolower;
     float_repr := whole_float_repr |}.

(** * The vocabulary of the properties *)

(** [x] occurs in [s]. *)
Definition occurs_in (x s : str) : Prop := exists pre post, s = pre ++ x ++ post.

(** Two patterns of the same shape whose character tests agree on the
    characters [P]. *)
Inductive similar (P : char -> Prop) : regex -> regex -> Prop :=
| similar_eps : similar P Eps Eps
| similar_chr p q : (forall c, P c -> p c = q c) -> similar P (Chr p) (Chr q)
| similar_seq r1 r1' r2 r2' :
    similar P r1 r1' -> similar P r2 r2' -> similar P (Seq r1 r2) (Seq r1' r2')
| similar_alt r1 r1' r2 r2' :
    similar P r1 r1' -> similar P r2 r2' -> similar P (Alt r1 r2) (Alt r1' r2')
| similar_star r r' : similar P r r' -> similar P (Star r) (Star r').

(** Two runtimes whose tables agree on the characters [P]. *)
Definition agree_on (P : char -> Prop) (rt rt' : runtime) : Prop :=
  forall c, P c ->
    uni_decimal rt c = uni_decimal rt' c /\
    uni_isspace rt c = uni_isspace rt' c /\
    uni_tolower rt c = uni_tolower rt' c.

(** The code points of Latin-1. *)
Definition latin1 (c : char) : Prop := (c < 256)%N.

(** What one fragment adds to the result: its listing when it was
    extracted and matched, nothing otherwise. *)
Definition accepted (rt : runtime) (criteria : HousingCriteria) (item : fragment)
  : list dict :=
  match extract_listing rt criteria item with
  | Ok (Some (listing, _)) =>
      if _matches_criteria listing criteria then [listing] else []
  | Ok None => []
  | Raise _ => []
  end.

(** The price of an extracted listing is a float or [None], which is all
    the formatter can be asked to print with [,.0f]. *)
Definition well_priced (listing : dict) : Prop :=
  match dict_get listing (lit "price_dkk") with
  | PNone | PFloat _ => True
  | _ => False
  end.

(** [enumerate(l, start)] *)
Fixpoint enumerate {A : Type} (start : nat) (l : list A) : list (nat * A) :=
  match l with
  | [] => []
  | x :: l' => (start, x) :: enumerate (S start) l'
  end.

(** The first line of a block: the number, and the title entry of the
    listing as [str] prints it (the placeholder when there is no such
    entry). *)
Definition block_head (rt : runtime) (i : nat) (listing : dict) : str :=
  str_of_nat i ++ lit ". "
  ++ py_str rt (dict_get_default listing (lit "title") (PStr (lit "Unlisted Property")))
  ++ [nl].

(** [block] is the block of the numbered listing. *)
Definition block_of (rt : runtime) (block : str) (numbered : nat * dict) : Prop :=
  render_listing rt (fst numbered) (snd numbered) [] = Ok block /\
  exists body, block = block_head rt (fst numbered) (snd numbered) ++ body.

(** [listings] comes from [crawl_data] by leaving some fragments out and
    extracting the others, in the order of [crawl_data]. *)
Inductive drawn_in_order (rt : runtime) (criteria : HousingCriteria)
  : list fragment -> list dict -> Prop :=
| drawn_nil : drawn_in_order rt criteria [] []
| drawn_skip item crawl_data listings :
    drawn_in_order rt criteria crawl_data listings ->
    drawn_in_order rt criteria (item :: crawl_data) listings
| drawn_take item crawl_data listing url listings :
    extract_listing rt criteria item = Ok (Some (listing, url)) ->
    drawn_in_order rt criteria crawl_data listings ->
    drawn_in_order rt criteria (item :: crawl_data) (listing :: listings).

(** * Sample inputs *)

Definition listing_without_price : dict :=
  [(lit "title", PStr (lit "Nice flat"));
   (lit "price_dkk", PNone);
   (lit "location", PStr (lit "copenhagen"));
   (lit "bedrooms", PInt 3)].

(** The listing of a studio: every field is set, the room count is zero. *)
Definition studio_listing : dict :=
  [(lit "title", PStr (lit "Studio"));
   (lit "price_dkk", PFloat (float_of_Z 9000));
   (lit "location", PStr (lit "copenhagen"));
   (lit "size_m2", PFloat (float_of_Z 30));
   (lit "bedrooms", PInt 0);
   (lit "property_type", PStr (lit "apartment"));
   (lit "listing_url", PNone)].

Definition studio_criteria : HousingCriteria :=
  mkCriteria (PStr (lit "copenhagen")) (PInt 19000) (PInt 0).

Definition spec_criteria : HousingCriteria :=
  mkCriteria (PStr (lit "copenhagen")) (PInt 19000) (PInt 2).

Definition priced_listing (price rooms : Z) : dict :=
  [(lit "title", PStr (lit "Nice flat"));
   (lit "price_dkk", PFloat (float_of_Z price));
   (lit "location", PStr (lit "copenhagen"));
   (lit "size_m2", PNone);
   (lit "bedrooms", PInt rooms);
   (lit "property_type", PStr (lit "apartment"));
   (lit "listing_url", PNone)].

Definition furnished_criteria : HousingCriteria :=
  {| location := PStr (lit "copenhagen"); max_price := PInt 19000;
     min_bedrooms := PInt 2; property_type := PStr (lit "house");
     min_size_m2 := PInt 200; max_size_m2 := PInt 300;
     furnished := PBool true; immediate_availability := PBool true;
     pets_allowed := PBool false |}.

(** The fragment of the specification's example. *)
Definition nice_flat_text : str :=
  lit "Nice flat" ++ [nl] ++ lit "12,500 DKK" ++ [nl]
  ++ lit "3 room apartment" ++ [nl] ++ lit "70 m" ++ [sup2].

Definition nice_flat_link : str := lit "/rental-properties/copenhagen/123".

Definition nice_flat : fragment :=
  {| text := Some (PStr nice_flat_text); links := Some [PStr nice_flat_link] |}.

Definition nice_flat_listing (loc : pyval) : dict :=
  [(lit "title", PStr (lit "Nice flat"));
   (lit "price_dkk", PFloat (float_of_Z 12500));
   (lit "location", loc);
   (lit "size_m2", PFloat (float_of_Z 70));
   (lit "bedrooms", PInt 3);
   (lit "property_type", PStr (lit "apartment"));
   (lit "listing_url", PStr nice_flat_link)].

(** A fragment whose text is a number, and one with a link that is not a
    string: [re.search] and [in] raise [TypeError] on them. *)
Definition numeric_text : fragment :=
  {| text := Some (PInt 5); links := Some [] |}.

Definition null_link : fragment :=
  {| text := Some (PStr nice_flat_text); links := Some [PNone] |}.

(** Criteria whose price ceiling came as a string: comparing a price with
    it raises [TypeError]. *)
Definition quoted_criteria : HousingCriteria :=
  mkCriteria (PStr (lit "copenhagen")) (PStr (lit "19000")) (PInt 2).

(** A fragment whose text starts with a line break: its first line, the
    title, is the empty string. *)
Definition untitled_text : str :=
  [nl] ++ lit "12,500 DKK" ++ [nl] ++ lit "3 room apartment".

Definition untitled : fragment :=
  {| text := Some (PStr untitled_text); links := None |}.

Definition untitled_listing : dict :=
  [(lit "title", PStr []);
   (lit "price_dkk", PFloat (float_of_Z 12500));
   (lit "location", PStr (lit "copenhagen"));
   (lit "size_m2", PNone);
   (lit "bedrooms", PInt 3);
   (lit "property_type", PStr (lit "apartment"));
   (lit "listing_url", PNone)].

Definition untitled_response : str :=
  lit "Found 1 matching properties:" ++ [nl; nl]
  ++ lit "1. " ++ [nl]
  ++ lit "   Price: 12,500 DKK/month" ++ [nl]
  ++ lit "   Rooms: 3" ++ [nl]
  ++ [nl].

(** Services for one exchange: the model understands [understood] and
    nothing else, and the crawler finds [nice_flat]. *)
Definition sample_services (understood : str) : services :=
  {| _parse_query := fun query =>
       if str_eqb query understood then Ok spec_criteria else Raise ValueError;
     _perform_crawl := fun _ => Ok [nice_flat] |}.

(** * Further vocabulary *)

(** [u] is a string the pattern [r] matches as a whole. *)
Inductive accepts : regex -> str -> Prop :=
| accepts_eps : accepts Eps []
| accepts_chr p c : p c = true -> accepts (Chr p) [c]
| accepts_seq r1 r2 u v :
    accepts r1 u -> accepts r2 v -> accepts (Seq r1 r2) (u ++ v)
| accepts_alt_l r1 r2 u : accepts r1 u -> accepts (Alt r1 r2) u
| accepts_alt_r r1 r2 u : accepts r2 u -> accepts (Alt r1 r2) u
| accepts_star_nil r : accepts (Star r) []
| accepts_star_more r u v :
    accepts r u -> accepts (Star r) v -> accepts (Star r) (u ++ v).

(** Every character test of the pattern lets through only characters of
    [Q]. *)
Fixpoint tests_within (Q : char -> Prop) (r : regex) : Prop :=
  match r with
  | Eps => True
  | Chr p => forall c, p c = true -> Q c
  | Seq r1 r2 | Alt r1 r2 => tests_within Q r1 /\ tests_within Q r2
  | Star r' => tests_within Q r'
  end.

(** A decimal digit of the runtime. *)
Definition is_decimal (rt : runtime) (c : char) : Prop :=
  exists d, uni_decimal rt c = Some d.



(** The dict literal of [_process_housing_results]. *)
Definition listing_of (title price loc size rooms url : pyval) : dict :=
  [(lit "title", title);
   (lit "price_dkk", price);
   (lit "location", loc);
   (lit "size_m2", size);
   (lit "bedrooms", rooms);
   (lit "property_type", PStr (lit "apartment"));
   (lit "listing_url", url)].


(** A listing as a search returns it: the seven entries, with a price and
    a room count that are there and not zero. *)
Definition returned_shape (criteria : HousingCriteria) (listing : dict) : Prop :=
  exists (title : str) (price : spec_float) (rooms : Z) (size url : pyval),
    listing = listing_of (PStr title) (PFloat price) (location criteria)
                size (PInt rooms) url /\
    py_bool (PFloat price) = true /\
    rooms <> 0%Z /\
    py_bool (location criteria) = true /\
    (size = PNone \/ exists f, size = PFloat f) /\
    (url = PNone \/
     exists u, url = PStr u /\ str_contains (lit "/rental-properties/") u = true).

(** [bool(item.get("text", ""))]: the fragment has a text to look at. *)
Definition has_text (item : fragment) : bool :=
  py_bool (match text item with Some v => v | None => PStr [] end).

(** Two criteria with the same five fields the search reads. *)
Definition same_search (c1 c2 : HousingCriteria) : Prop :=
  location c1 = location c2 /\
  max_price c1 = max_price c2 /\
  min_bedrooms c1 = min_bedrooms c2 /\
  property_type c1 = property_type c2 /\
  min_size_m2 c1 = min_size_m2 c2.

(** Criteria no extracted listing can pass: a price ceiling or a room
    minimum that is not a number, or a location that is empty or not
    there. *)
Definition unmatchable (criteria : HousingCriteria) : Prop :=
  as_number (max_price criteria) = None \/
  as_number (min_bedrooms criteria) = None \/
  py_bool (location criteria) = false.


(** Services that read every query as [criteria] and crawl [crawl_data]. *)
Definition fixed_services (criteria : HousingCriteria) (crawl_data : list fragment)
  : services :=
  {| _parse_query := fun _ => Ok criteria;
     _perform_crawl := fun _ => Ok crawl_data |}.

(** Services whose crawler fails. *)
Definition offline_services (criteria : HousingCriteria) : services :=
  {| _parse_query := fun _ => Ok criteria;
     _perform_crawl := fun _ => Raise ValueError |}.

(** The runtime reads the ASCII digits as the digits they are. *)
Definition reads_ascii_digits (rt : runtime) : Prop :=
  forall c, (48 <= c <= 57)%N -> uni_decimal rt c = Some (Z.of_N c - 48)%Z.

(** * The query interpreter and the set-up *)

(** The fields of the dataclass, in order. *)
Definition field_names : list str :=
  [lit "location"; lit "max_price"; lit "min_bedrooms"; lit "property_type";
   lit "min_size_m2"; lit "max_size_m2"; lit "furnished";
   lit "immediate_availability"; lit "pets_allowed"].

(** The constructor of the dataclass, called with the entries of
    [kwargs] as keywords: a keyword that is no field, or a missing
    [location], [max_price] or [min_bedrooms], is a [TypeError]; the
    other fields have defaults; no value is checked. *)
Definition HousingCriteria_init (kwargs : dict) : result HousingCriteria :=
  if forallb (fun kv => existsb (str_eqb (fst kv)) field_names) kwargs
  then
    match dict_lookup kwargs (lit "location"),
          dict_lookup kwargs (lit "max_price"),
          dict_lookup kwargs (lit "min_bedrooms") with
    | Some loc, Some max_p, Some min_b =>
        Ok {| location := loc; max_price := max_p; min_bedrooms := min_b;
              property_type :=
                dict_get_default kwargs (lit "property_type") (PStr (lit "all"));
              min_size_m2 := dict_get kwargs (lit "min_size_m2");
              max_size_m2 := dict_get kwargs (lit "max_size_m2");
              furnished := dict_get kwargs (lit "furnished");
              immediate_availability := dict_get kwargs (lit "immediate_availability");
              pets_allowed := dict_get kwargs (lit "pets_allowed") |}
    | _, _, _ => Raise TypeError
    end
  else Raise TypeError.

(** [vars(criteria)] *)
Definition vars (criteria : HousingCriteria) : dict :=
  [(lit "location", location criteria);
   (lit "max_price", max_price criteria);
   (lit "min_bedrooms", min_bedrooms criteria);
   (lit "property_type", property_type criteria);
   (lit "min_size_m2", min_size_m2 criteria);
   (lit "max_size_m2", max_size_m2 criteria);
   (lit "furnished", furnished criteria);
   (lit "immediate_availability", immediate_availability criteria);
   (lit "pets_allowed", pets_allowed criteria)].

(** [_parse_query] after the language model has answered: [reply] is the
    JSON object decoded from the answer, or the exception of the call or
    of the decoding. Whatever goes wrong leaves as a [ValueError]. *)
Definition parse_reply (reply : result dict) : result HousingCriteria :=
  match (criteria_dict <- reply ;; HousingCriteria_init criteria_dict) with
  | Ok criteria => Ok criteria
  | Raise _ => Raise ValueError
  end.

(** Services whose interpreter is [_parse_query] over the model [chat]. *)
Definition chat_services (chat : str -> result dict)
    (crawl : str -> result (list fragment)) : services :=
  {| _parse_query := fun query => parse_reply (chat query);
     _perform_crawl := crawl |}.

(** [os.getenv] *)
Definition environ := str -> option str.

(** [_get_env_var]: a variable that is not set, or set to the empty
    string, is a [ValueError]. *)
Definition _get_env_var (env : environ) (name : str) : result str :=
  match env name with
  | Some (c :: value) => Ok (c :: value)
  | Some [] | None => Raise ValueError
  end.

(** [_init_clients], over the constructors of the two clients; its
    [except] logs and raises again. *)
Definition _init_clients {F O : Type} (env : environ)
    (FirecrawlApp : str -> result F) (OpenAI : str -> result O) : result (F * O) :=
  api_key <- _get_env_var env (lit "FIRECRAWL_API_KEY") ;;
  firecrawl <- FirecrawlApp api_key ;;
  openai_key <- _get_env_var env (lit "OPENAI_API_KEY") ;;
  openai <- OpenAI openai_key ;;
  Ok (firecrawl, openai).

(** An environment with the two keys. *)
Definition sample_environ (firecrawl_key openai_key : str) : environ :=
  fun name =>
    if str_eqb name (lit "FIRECRAWL_API_KEY") then Some firecrawl_key
    else if str_eqb name (lit "OPENAI_API_KEY") then Some openai_key
    else None.

(** The runtime does not take the two separators of the price pattern
    for digits. *)
Definition separators_are_no_digits (rt : runtime) : Prop :=
  uni_decimal rt 44%N = None /\ uni_decimal rt 46%N = None.

(** The pattern [(group)tail] matches at the start of [s]. *)
Definition matches_at (group tail : regex) (s : str) : Prop :=
  exists g t rest, s = g ++ t ++ rest /\ accepts group g /\ accepts tail t.

(** * Properties *)

(** ** Strings *)

Lemma str_eqb_eq a b : str_eqb a b = true <-> a = b.
Proof.
  unfold str_eqb. destruct (list_eq_dec N.eq_dec a b); split; congruence.
Qed.

Lemma str_eqb_refl a : str_eqb a a = true.
Proof. now apply str_eqb_eq. Qed.


(** ** The criteria matcher *)

Ltac matcher_unfold :=
  unfold _matches_criteria, matches_criteria_body; cbn [forallb bind].

Lemma matcher_rejects_falsy (listing : dict) (criteria : HousingCriteria) :
  py_bool (dict_get listing (lit "price_dkk")) = false \/
  py_bool (dict_get listing (lit "bedrooms")) = false \/
  py_bool (dict_get listing (lit "location")) = false ->
  _matches_criteria listing criteria = false.
Proof.
  intros H. matcher_unfold.
  destruct H as [H | [H | H]]; rewrite H;
    rewrite ?andb_false_r, ?andb_false_l; reflexivity.
Qed.

(** C3. A listing whose price, bedrooms or location is unset (the key is
    absent, or its value is [None]) is rejected, whatever the criteria. *)
Theorem matcher_rejects_missing (listing : dict) (criteria : HousingCriteria) :
  dict_get listing (lit "price_dkk") = PNone \/
  dict_get listing (lit "bedrooms") = PNone \/
  dict_get listing (lit "location") = PNone ->
  _matches_criteria listing criteria = false.
Proof.
  intros H. apply matcher_rejects_falsy.
  destruct H as [H | [H | H]]; rewrite H; auto.
Qed.

Lemma matcher_rejects_missing_witness :
  dict_get listing_without_price (lit "price_dkk") = PNone /\
  _matches_criteria listing_without_price
    (mkCriteria (PStr (lit "copenhagen")) (PInt 19000) (PInt 2)) = false.
Proof.
  split; [reflexivity |].
  apply matcher_rejects_missing. left. reflexivity.
Defined.

(** C2, as stated, fails on a zero value: the studio's price, bedrooms and
    location are all set, its price is not above the ceiling and its room
    count is not below the minimum, and the matcher rejects it. *)
Lemma matcher_rejects_zero_rooms :
  dict_get studio_listing (lit "price_dkk") <> PNone /\
  dict_get studio_listing (lit "bedrooms") <> PNone /\
  dict_get studio_listing (lit "location") <> PNone /\
  py_gt (dict_get studio_listing (lit "price_dkk")) (max_price studio_criteria) = Ok false /\
  py_lt (dict_get studio_listing (lit "bedrooms")) (min_bedrooms studio_criteria) = Ok false /\
  _matches_criteria studio_listing studio_criteria = false.
Proof.
  repeat split; try discriminate; vm_compute; reflexivity.
Qed.

(** C2, amended. For a listing whose price, bedrooms and location are set
    and truthy (a price and a room count other than zero, a location other
    than the empty string), the matcher rejects when the price is above
    [max_price], rejects when the room count is below [min_bedrooms], and
    accepts otherwise, the boundaries included. *)
Theorem matcher_decides_on_price_and_rooms
    (listing : dict) (criteria : HousingCriteria) :
  py_bool (dict_get listing (lit "price_dkk")) = true ->
  py_bool (dict_get listing (lit "bedrooms")) = true ->
  py_bool (dict_get listing (lit "location")) = true ->
  (py_gt (dict_get listing (lit "price_dkk")) (max_price criteria) = Ok true ->
   _matches_criteria listing criteria = false) /\
  (py_lt (dict_get listing (lit "bedrooms")) (min_bedrooms criteria) = Ok true ->
   _matches_criteria listing criteria = false) /\
  (py_gt (dict_get listing (lit "price_dkk")) (max_price criteria) = Ok false ->
   py_lt (dict_get listing (lit "bedrooms")) (min_bedrooms criteria) = Ok false ->
   _matches_criteria listing criteria = true).
Proof.
  intros Hp Hb Hl. matcher_unfold. rewrite Hp, Hb, Hl. cbn [andb negb].
  repeat split.
  - intros ->. reflexivity.
  - intros ->.
    destruct (py_gt _ _) as [[|]|]; reflexivity.
  - intros -> ->. reflexivity.
Qed.

(** With the types the extractor and the dataclass give them (a float
    price, an integer room count and integer criteria) no comparison
    raises, and the verdict is the two comparisons. *)
Lemma matcher_on_typed_fields (listing : dict) (criteria : HousingCriteria)
    (price : spec_float) (rooms mp mb : Z) :
  dict_get listing (lit "price_dkk") = PFloat price ->
  dict_get listing (lit "bedrooms") = PInt rooms ->
  py_bool (PFloat price) = true ->
  rooms <> 0%Z ->
  py_bool (dict_get listing (lit "location")) = true ->
  max_price criteria = PInt mp ->
  min_bedrooms criteria = PInt mb ->
  _matches_criteria listing criteria
  = negb (match float_compare_int price mp with Some Gt => true | _ => false end)
    && negb (Z.ltb rooms mb).
Proof.
  intros Hprice Hrooms Hp Hr Hl Hmp Hmb. matcher_unfold.
  rewrite Hprice, Hrooms, Hp, Hl, Hmp, Hmb. cbn [py_bool].
  apply Z.eqb_neq in Hr. rewrite Hr. cbn [negb andb].
  unfold py_gt, py_lt, py_compare. cbn [as_number number_compare bind].
  destruct (float_compare_int price mp) as [[| |] |]; cbn [negb andb];
    try reflexivity; unfold Z.ltb; destruct (Z.compare rooms mb); reflexivity.
Qed.

Lemma matcher_decides_on_price_and_rooms_witness :
  _matches_criteria (priced_listing 19500 2) spec_criteria = false /\
  _matches_criteria (priced_listing 18000 1) spec_criteria = false /\
  _matches_criteria (priced_listing 18000 3) spec_criteria = true /\
  _matches_criteria (priced_listing 19000 2) spec_criteria = true.
Proof.
  split; [| split; [| split]].
  - destruct (matcher_decides_on_price_and_rooms (priced_listing 19500 2)
                spec_criteria eq_refl eq_refl eq_refl) as [over _].
    apply over. reflexivity.
  - destruct (matcher_decides_on_price_and_rooms (priced_listing 18000 1)
                spec_criteria eq_refl eq_refl eq_refl) as [_ [under _]].
    apply under. reflexivity.
  - destruct (matcher_decides_on_price_and_rooms (priced_listing 18000 3)
                spec_criteria eq_refl eq_refl eq_refl) as [_ [_ within]].
    apply within; reflexivity.
  - destruct (matcher_decides_on_price_and_rooms (priced_listing 19000 2)
                spec_criteria eq_refl eq_refl eq_refl) as [_ [_ within]].
    apply within; reflexivity.
Defined.

(** C8. Two criteria with the same [max_price], [min_bedrooms] and
    [location] give the same verdict on every listing, however they differ
    in [property_type], the size bounds, [furnished],
    [immediate_availability] and [pets_allowed]. *)
Theorem matcher_ignores_optional_fields
    (listing : dict) (c1 c2 : HousingCriteria) :
  max_price c1 = max_price c2 ->
  min_bedrooms c1 = min_bedrooms c2 ->
  location c1 = location c2 ->
  _matches_criteria listing c1 = _matches_criteria listing c2.
Proof.
  intros Hp Hb _. matcher_unfold. rewrite Hp, Hb. reflexivity.
Qed.

Lemma matcher_ignores_optional_fields_witness :
  _matches_criteria (priced_listing 18000 3) spec_criteria =
  _matches_criteria (priced_listing 18000 3) furnished_criteria.
Proof.
  apply (matcher_ignores_optional_fields (priced_listing 18000 3)
           spec_criteria furnished_criteria); reflexivity.
Defined.

(** ** The search URL builder *)

Lemma Ok_inj {A : Type} (a b : A) : Ok a = Ok b -> a = b.
Proof. intros H. injection H as ->. reflexivity. Qed.

Lemma join_cons (sep p : str) (rest : list str) :
  join sep (p :: rest) = p ++ concat (map (fun q => sep ++ q) rest).
Proof.
  revert p. induction rest as [| q rest IH]; intros p.
  - cbn. now rewrite app_nil_r.
  - change (join sep (p :: q :: rest)) with (p ++ sep ++ join sep (q :: rest)).
    rewrite IH. cbn [map concat]. now rewrite <- app_assoc.
Qed.

Lemma search_params_head (rt : runtime) (criteria : HousingCriteria) :
  exists rest,
    search_params rt criteria =
    (lit "max_monthly_rent=" ++ py_str rt (max_price criteria)) :: rest.
Proof.
  unfold search_params.
  destruct (py_ne_str _ _), (py_bool _); cbn [app]; eexists; reflexivity.
Qed.

Lemma construct_search_url_shape (rt : runtime) (criteria : HousingCriteria)
    (loc : str) :
  location criteria = PStr loc ->
  exists rest,
    search_params rt criteria =
      (lit "max_monthly_rent=" ++ py_str rt (max_price criteria)) :: rest /\
    construct_search_url rt criteria =
      Ok ((base_url ++ lit "/rental-properties/"
             ++ replace_char 32%N (lit "-") (str_lower rt loc))
          ++ lit "/" ++ py_str rt (min_bedrooms criteria) ++ lit "-rooms"
          ++ lit "/" ++ lit "?"
          ++ (lit "max_monthly_rent=" ++ py_str rt (max_price criteria))
          ++ concat (map (fun q => lit "&" ++ q) rest)).
Proof.
  intros Hloc. destruct (search_params_head rt criteria) as [rest Hrest].
  exists rest. split; [exact Hrest |].
  unfold construct_search_url. rewrite Hloc. cbn [py_lower bind].
  rewrite Hrest. unfold attach_params. rewrite join_cons.
  f_equal. rewrite <- !app_assoc. reflexivity.
Qed.

(** C4. For a valid criteria object (a string location, an integer
    [max_price] above zero, an integer [min_bedrooms] of at least zero) the
    URL is built, and it has the lower-cased, hyphenated location in the
    segment after [/rental-properties/], the segment
    [{min_bedrooms}-rooms], and the parameter [max_monthly_rent=] followed
    by the digits of [max_price] and then the end of the URL or an [&]. *)
Theorem search_url_shows_criteria (rt : runtime) (criteria : HousingCriteria)
    (loc : str) (mp mb : Z) :
  location criteria = PStr loc ->
  max_price criteria = PInt mp ->
  min_bedrooms criteria = PInt mb ->
  (0 < mp)%Z ->
  (0 <= mb)%Z ->
  exists url,
    construct_search_url rt criteria = Ok url /\
    occurs_in (lit "/rental-properties/"
                 ++ replace_char 32%N (lit "-") (str_lower rt loc) ++ lit "/") url /\
    occurs_in (lit "/" ++ str_of_Z mb ++ lit "-rooms" ++ lit "/") url /\
    exists pre post,
      url = pre ++ (lit "max_monthly_rent=" ++ str_of_Z mp) ++ post /\
      (post = [] \/ exists more, post = lit "&" ++ more).
Proof.
  intros Hloc Hmp Hmb _ _.
  destruct (construct_search_url_shape rt criteria loc Hloc) as [rest [_ Hurl]].
  rewrite Hmp, Hmb in Hurl. cbn [py_str] in Hurl.
  eexists. split; [exact Hurl |].
  split; [| split].
  - exists base_url.
    exists (str_of_Z mb ++ lit "-rooms" ++ lit "/" ++ lit "?"
            ++ (lit "max_monthly_rent=" ++ str_of_Z mp)
            ++ concat (map (fun q => lit "&" ++ q) rest)).
    rewrite <- !app_assoc. reflexivity.
  - exists (base_url ++ lit "/rental-properties/"
              ++ replace_char 32%N (lit "-") (str_lower rt loc)).
    exists (lit "?" ++ (lit "max_monthly_rent=" ++ str_of_Z mp)
            ++ concat (map (fun q => lit "&" ++ q) rest)).
    rewrite <- !app_assoc. reflexivity.
  - exists ((base_url ++ lit "/rental-properties/"
               ++ replace_char 32%N (lit "-") (str_lower rt loc))
            ++ lit "/" ++ str_of_Z mb ++ lit "-rooms" ++ lit "/" ++ lit "?").
    exists (concat (map (fun q => lit "&" ++ q) rest)). split.
    + rewrite <- !app_assoc. reflexivity.
    + destruct rest as [| q rest]; [left; reflexivity | right].
      cbn [map concat]. exists (q ++ concat (map (fun q => lit "&" ++ q) rest)).
      rewrite <- app_assoc. reflexivity.
Qed.

Lemma search_url_shows_criteria_witness :
  exists url,
    construct_search_url latin1_runtime
      (mkCriteria (PStr (lit "New York")) (PInt 19000) (PInt 2)) = Ok url /\
    occurs_in (lit "/rental-properties/new-york/") url /\
    occurs_in (lit "/2-rooms/") url /\
    exists pre post,
      url = pre ++ lit "max_monthly_rent=19000" ++ post /\
      (post = [] \/ exists more, post = lit "&" ++ more).
Proof.
  apply (search_url_shows_criteria latin1_runtime
           (mkCriteria (PStr (lit "New York")) (PInt 19000) (PInt 2))
           (lit "New York") 19000%Z 2%Z);
    first [reflexivity | lia].
Defined.

(** C7. Whenever a URL is built, the parameters that were added are at
    its end, joined with [&] and attached to the path by [/] and a single
    [?], which is the character just before the first parameter; with no
    parameter nothing is attached. *)
Theorem query_string_attached (rt : runtime) (criteria : HousingCriteria)
    (url : str) :
  construct_search_url rt criteria = Ok url ->
  (exists path first rest,
     search_params rt criteria = first :: rest /\
     url = path ++ lit "/" ++ lit "?"
           ++ first ++ concat (map (fun p => lit "&" ++ p) rest)) /\
  (forall path, attach_params path [] = path).
Proof.
  intros Hurl. split; [| reflexivity].
  assert (exists loc, location criteria = PStr loc) as [loc Hloc].
  { unfold construct_search_url in Hurl.
    destruct (location criteria); try discriminate Hurl. eexists; reflexivity. }
  destruct (construct_search_url_shape rt criteria loc Hloc) as [rest [Hrest Hshape]].
  rewrite Hshape in Hurl. apply Ok_inj in Hurl.
  exists ((base_url ++ lit "/rental-properties/"
             ++ replace_char 32%N (lit "-") (str_lower rt loc))
          ++ lit "/" ++ py_str rt (min_bedrooms criteria) ++ lit "-rooms").
  exists (lit "max_monthly_rent=" ++ py_str rt (max_price criteria)), rest.
  split; [exact Hrest |].
  rewrite <- Hurl, <- !app_assoc. reflexivity.
Qed.

Lemma query_string_attached_witness :
  (exists path first rest,
     search_params latin1_runtime furnished_criteria = first :: rest /\
     lit "https://www.boligportal.dk/en/rental-properties/copenhagen/2-rooms/?max_monthly_rent=19000&housing_type=house&min_size_m2=200"
     = path ++ lit "/" ++ lit "?"
       ++ first ++ concat (map (fun p => lit "&" ++ p) rest)) /\
  (forall path, attach_params path [] = path).
Proof.
  apply (query_string_attached latin1_runtime furnished_criteria). reflexivity.
Defined.

(** ** Repetition never runs short

    [run] gives a repetition as many rounds as the subject has
    characters. Every round that goes on consumes at least one, so more
    rounds would change nothing. *)

Lemma flat_map_nothing {A B : Type} (f : A -> list B) (l : list A) :
  (forall a, f a = []) -> flat_map f l = [].
Proof.
  intros Hf. induction l as [| a l IH]; cbn [flat_map]; [reflexivity |].
  now rewrite Hf, IH.
Qed.

Lemma flat_map_same {A B : Type} (f g : A -> list B) (l : list A) :
  (forall a, f a = g a) -> flat_map f l = flat_map g l.
Proof.
  intros Hfg. induction l as [| a l IH]; cbn [flat_map]; [reflexivity |].
  now rewrite Hfg, IH.
Qed.

Lemma star_run_enough (step : str -> list str) (fuel : nat) :
  forall s, length s <= fuel -> star_run step (S fuel) s = star_run step fuel s.
Proof.
  induction fuel as [| fuel IH]; intros s Hs.
  - destruct s as [| c s]; [| cbn in Hs; lia].
    cbn [star_run length]. rewrite flat_map_nothing; [reflexivity |].
    intros s'. reflexivity.
  - change (star_run step (S (S fuel)) s)
      with (flat_map
              (fun s' => if Nat.ltb (length s') (length s)
                         then star_run step (S fuel) s' else [])
              (step s) ++ [s]).
    cbn [star_run]. f_equal. apply flat_map_same. intros s'.
    destruct (Nat.ltb (length s') (length s)) eqn:Hlt; [| reflexivity].
    apply Nat.ltb_lt in Hlt. apply IH. lia.
Qed.

Lemma star_run_more (step : str -> list str) (s : str) (extra : nat) :
  star_run step (length s + extra) s = star_run step (length s) s.
Proof.
  induction extra as [| extra IH].
  - now rewrite Nat.add_0_r.
  - rewrite Nat.add_succ_r, star_run_enough; [exact IH | lia].
Qed.

(** ** The matcher of regular expressions looks only at the subject

    Two patterns of the same shape whose character tests agree on the
    characters of a subject match it the same way. This is what lets a
    result computed with [latin1_runtime] stand for every runtime whose
    tables say the same on Latin-1. *)

Section Similar.

Variable P : char -> Prop.

Lemma star_run_Forall (step : str -> list str) :
  (forall s, Forall P s -> Forall (Forall P) (step s)) ->
  forall fuel s, Forall P s -> Forall (Forall P) (star_run step fuel s).
Proof.
  intros Hstep. induction fuel as [| fuel IH]; intros s Hs; cbn [star_run].
  - constructor; [assumption | constructor].
  - apply Forall_app. split.
    + apply Forall_flat_map.
      eapply Forall_impl; [| apply Hstep; exact Hs].
      intros s' Hs'. cbv beta.
      destruct (Nat.ltb _ _); [apply IH; exact Hs' | constructor].
    + constructor; [assumption | constructor].
Qed.

Lemma run_Forall (r : regex) :
  forall s, Forall P s -> Forall (Forall P) (run r s).
Proof.
  induction r as [| p | r1 IH1 r2 IH2 | r1 IH1 r2 IH2 | r IH];
    intros s Hs; cbn [run].
  - constructor; [assumption | constructor].
  - destruct s as [| c s']; [constructor |].
    destruct (p c); [| constructor].
    constructor; [| constructor]. now inversion Hs.
  - apply Forall_flat_map.
    eapply Forall_impl; [| apply IH1; exact Hs].
    intros s' Hs'. apply IH2. exact Hs'.
  - apply Forall_app. split; [apply IH1 | apply IH2]; exact Hs.
  - apply star_run_Forall; assumption.
Qed.

Lemma flat_map_agree {A B : Type} (Q : A -> Prop) (f g : A -> list B) (l : list A) :
  Forall Q l -> (forall a, Q a -> f a = g a) -> flat_map f l = flat_map g l.
Proof.
  intros Hl Hfg. induction Hl as [| a l Ha _ IH]; cbn [flat_map].
  - reflexivity.
  - rewrite (Hfg a Ha), IH. reflexivity.
Qed.

Lemma star_run_similar (step step' : str -> list str) :
  (forall s, Forall P s -> Forall (Forall P) (step s)) ->
  (forall s, Forall P s -> step s = step' s) ->
  forall fuel s, Forall P s -> star_run step fuel s = star_run step' fuel s.
Proof.
  intros Hall Hsame. induction fuel as [| fuel IH]; intros s Hs; cbn [star_run].
  - reflexivity.
  - rewrite <- (Hsame s Hs). f_equal.
    apply (flat_map_agree (Forall P)); [apply Hall; exact Hs |].
    intros s' Hs'. destruct (Nat.ltb _ _); [apply IH; exact Hs' | reflexivity].
Qed.

Lemma run_similar (r r' : regex) :
  similar P r r' -> forall s, Forall P s -> run r s = run r' s.
Proof.
  induction 1 as [| p q Hpq | r1 r1' r2 r2' _ IH1 _ IH2
                  | r1 r1' r2 r2' _ IH1 _ IH2 | r r' _ IH];
    intros s Hs; cbn [run].
  - reflexivity.
  - destruct s as [| c s']; [reflexivity |].
    rewrite (Hpq c); [reflexivity | now inversion Hs].
  - rewrite <- (IH1 s Hs).
    apply (flat_map_agree (Forall P)); [apply run_Forall; exact Hs | exact IH2].
  - rewrite (IH1 s Hs), (IH2 s Hs). reflexivity.
  - apply star_run_similar; [apply run_Forall | exact IH | exact Hs].
Qed.

Lemma first_capture_similar (tail tail' : regex) (s : str) (ends : list str) :
  similar P tail tail' -> Forall (Forall P) ends ->
  first_capture tail s ends = first_capture tail' s ends.
Proof.
  intros Htail Hends. induction Hends as [| s' ends Hs' _ IH]; cbn [first_capture].
  - reflexivity.
  - rewrite <- (run_similar tail tail' Htail s' Hs'), IH. reflexivity.
Qed.

Lemma search_similar (group group' tail tail' : regex) :
  similar P group group' -> similar P tail tail' ->
  forall s, Forall P s -> search group tail s = search group' tail' s.
Proof.
  intros Hgroup Htail s Hs.
  induction Hs as [| c s Hc Hs IH].
  - cbn [search]. unfold match_here.
    rewrite <- (run_similar group group' Hgroup [] (Forall_nil P)).
    rewrite (first_capture_similar tail tail' [] (run group []) Htail
               (run_Forall group [] (Forall_nil P))).
    reflexivity.
  - cbn [search]. unfold match_here.
    assert (Hcs : Forall P (c :: s)) by now constructor.
    rewrite <- (run_similar group group' Hgroup (c :: s) Hcs).
    rewrite (first_capture_similar tail tail' (c :: s) (run group (c :: s)) Htail
               (run_Forall group (c :: s) Hcs)).
    rewrite IH. reflexivity.
Qed.

Lemma first_capture_Forall (tail : regex) (s : str) (ends : list str) (g : str) :
  Forall P s -> first_capture tail s ends = Some g -> Forall P g.
Proof.
  intros Hs. induction ends as [| s' ends IH]; cbn [first_capture].
  - discriminate.
  - destruct (run tail s'); [exact IH |].
    intros [= <-].
    rewrite <- (firstn_skipn (length s - length s') s) in Hs.
    apply Forall_app in Hs. apply Hs.
Qed.

Lemma search_Forall (group tail : regex) (s g : str) :
  Forall P s -> search group tail s = Some g -> Forall P g.
Proof.
  intros Hs. induction Hs as [| c s Hc Hs IH]; cbn [search].
  - destruct (match_here group tail []) as [g' |] eqn:E; [| discriminate].
    intros [= <-]. exact (first_capture_Forall tail [] _ g' (Forall_nil P) E).
  - destruct (match_here group tail (c :: s)) as [g' |] eqn:E.
    + intros [= <-]. refine (first_capture_Forall tail (c :: s) _ g' _ E). now constructor.
    + exact IH.
Qed.

End Similar.

Section Agree.

Variable P : char -> Prop.
Variables rt rt' : runtime.
Hypothesis tables : agree_on P rt rt'.

Lemma similar_refl (r : regex) : similar P r r.
Proof. induction r; constructor; auto. Qed.

Lemma similar_seqs (rs rs' : list regex) :
  Forall2 (similar P) rs rs' -> similar P (seqs rs) (seqs rs').
Proof.
  induction 1; cbn [seqs fold_right]; constructor; assumption.
Qed.

Lemma similar_digit : similar P (digit rt) (digit rt').
Proof.
  constructor. intros c Hc. destruct (tables c Hc) as [-> _]. reflexivity.
Qed.

Lemma similar_space : similar P (space rt) (space rt').
Proof.
  constructor. intros c Hc. destruct (tables c Hc) as [_ [-> _]]. reflexivity.
Qed.

Lemma similar_nocase (c : char) : P c -> similar P (nocase rt c) (nocase rt' c).
Proof.
  intros Hc. constructor. intros x Hx.
  destruct (tables c Hc) as [_ [_ ->]]. destruct (tables x Hx) as [_ [_ ->]].
  reflexivity.
Qed.

Lemma similar_word_nocase (w : str) :
  Forall P w -> similar P (word_nocase rt w) (word_nocase rt' w).
Proof.
  intros Hw. apply similar_seqs.
  induction Hw; cbn [map]; constructor; auto using similar_nocase.
Qed.

Ltac similar_step :=
  first [ apply similar_refl | apply similar_digit | apply similar_space
        | apply similar_seq | apply similar_alt | apply similar_star ].

Lemma similar_price_group : similar P (price_group rt) (price_group rt').
Proof.
  unfold price_group, plus, opt, seqs. cbn [fold_right]. repeat similar_step.
Qed.

Lemma similar_price_tail : similar P (price_tail rt) (price_tail rt').
Proof. unfold price_tail. repeat similar_step. Qed.

Lemma similar_digits : similar P (plus (digit rt)) (plus (digit rt')).
Proof. unfold plus. repeat similar_step. Qed.

Lemma similar_size_tail : similar P (size_tail rt) (size_tail rt').
Proof. unfold size_tail. repeat similar_step. Qed.

Lemma similar_room_tail :
  Forall P (lit "room" ++ lit "bed" ++ lit "v" ++ [ae] ++ lit "relser") ->
  similar P (room_tail rt) (room_tail rt').
Proof.
  intros Hletters.
  assert (Hin : forall w, incl w (lit "room" ++ lit "bed" ++ lit "v" ++ [ae] ++ lit "relser") ->
                          similar P (word_nocase rt w) (word_nocase rt' w)).
  { intros w Hw. apply similar_word_nocase. apply Forall_forall. intros c Hc.
    apply (proj1 (Forall_forall P _) Hletters). apply Hw. exact Hc. }
  unfold room_tail.
  apply similar_seq; [repeat similar_step |].
  repeat first [ apply Hin; intros c Hc; vm_compute in Hc |- *; tauto
               | apply similar_alt ].
Qed.

Lemma digits_value_agree (s : str) :
  Forall P s -> digits_value rt s = digits_value rt' s.
Proof.
  unfold digits_value. generalize (Some 0%Z).
  intros acc Hs. revert acc.
  induction Hs as [| c s Hc _ IH]; intros acc; cbn [fold_left].
  - reflexivity.
  - destruct (tables c Hc) as [-> _]. apply IH.
Qed.

Lemma py_int_agree (s : str) : Forall P s -> py_int rt s = py_int rt' s.
Proof.
  intros Hs. unfold py_int. rewrite (digits_value_agree s Hs). reflexivity.
Qed.

Lemma py_float_agree (s : str) : Forall P s -> py_float rt s = py_float rt' s.
Proof.
  intros Hs. unfold py_float. rewrite (py_int_agree s Hs). reflexivity.
Qed.

Lemma replace_char_Forall (old : char) (s : str) :
  Forall P s -> Forall P (replace_char old [] s).
Proof.
  intros Hs. unfold replace_char. apply Forall_flat_map.
  eapply Forall_impl; [| exact Hs].
  intros c Hc. cbv beta. destruct (N.eqb c old); repeat constructor. exact Hc.
Qed.

(** On a fragment whose text is made of characters of [P], and with the
    letters of the room pattern in [P], the two runtimes extract the
    same listing. *)
Lemma extract_listing_agree (criteria : HousingCriteria) (t : str)
    (ls : option (list pyval)) :
  Forall P (lit "room" ++ lit "bed" ++ lit "v" ++ [ae] ++ lit "relser") ->
  Forall P t ->
  extract_listing rt criteria {| text := Some (PStr t); links := ls |} =
  extract_listing rt' criteria {| text := Some (PStr t); links := ls |}.
Proof.
  intros Hletters Ht. unfold extract_listing. cbn [text links].
  destruct (negb (py_bool (PStr t))); [reflexivity |].
  cbn [re_search bind]. unfold room_group, size_group.
  rewrite (search_similar P _ _ _ _ similar_price_group similar_price_tail t Ht).
  rewrite (search_similar P _ _ _ _ similar_digits (similar_room_tail Hletters) t Ht).
  rewrite (search_similar P _ _ _ _ similar_digits similar_size_tail t Ht).
  assert (Hprice : forall m, search (price_group rt') (price_tail rt') t = m ->
                             parse_price rt m = parse_price rt' m).
  { intros [g |] Hm; [| reflexivity]. cbn [parse_price].
    rewrite py_float_agree; [reflexivity |].
    do 2 apply replace_char_Forall. exact (search_Forall P _ _ t g Ht Hm). }
  assert (Hrooms : forall m, search (plus (digit rt')) (room_tail rt') t = m ->
                             parse_rooms rt m = parse_rooms rt' m).
  { intros [g |] Hm; [| reflexivity]. cbn [parse_rooms].
    rewrite py_int_agree; [reflexivity |]. exact (search_Forall P _ _ t g Ht Hm). }
  assert (Hsize : forall m, search (plus (digit rt')) (size_tail rt') t = m ->
                            parse_size rt m = parse_size rt' m).
  { intros [g |] Hm; [| reflexivity]. cbn [parse_size].
    rewrite py_float_agree; [reflexivity |]. exact (search_Forall P _ _ t g Ht Hm). }
  rewrite (Hprice _ eq_refl), (Hrooms _ eq_refl), (Hsize _ eq_refl).
  destruct (parse_price rt' _) as [price |]; [| reflexivity].
  destruct (parse_rooms rt' _) as [rooms |]; [| reflexivity].
  destruct (parse_size rt' _) as [size |]; [| reflexivity].
  cbn [bind].
  destruct (find_link _) as [[| b | z | f | u] |]; [| | | | | reflexivity];
    cbn [bind first_line py_bool py_startswith]; reflexivity.
Qed.

End Agree.

Lemma agree_on_refl (P : char -> Prop) (rt : runtime) : agree_on P rt rt.
Proof. intros c _. repeat split. Qed.

Lemma room_letters_latin1 :
  Forall latin1 (lit "room" ++ lit "bed" ++ lit "v" ++ [ae] ++ lit "relser").
Proof. repeat constructor. Qed.

(** ** The listing extractor *)

(** A fragment without text, or with an empty one, gives no listing. *)
Lemma extract_listing_empty_text (rt : runtime) (criteria : HousingCriteria)
    (ls : option (list pyval)) :
  extract_listing rt criteria {| text := None; links := ls |} = Ok None /\
  extract_listing rt criteria {| text := Some (PStr []); links := ls |} = Ok None /\
  extract_listing rt criteria {| text := Some PNone; links := ls |} = Ok None.
Proof. repeat split. Qed.

(** The separators are dropped, not read: [1.500 kr.] is found as 500 and
    [1,234.56 DKK] as 123456. *)
Lemma parse_price_drops_separators :
  parse_price latin1_runtime
    (search (price_group latin1_runtime) (price_tail latin1_runtime)
       (lit "1.500 kr."))
  = Ok (PFloat (float_of_Z 500)) /\
  parse_price latin1_runtime
    (search (price_group latin1_runtime) (price_tail latin1_runtime)
       (lit "1,234.56 DKK"))
  = Ok (PFloat (float_of_Z 123456)).
Proof. split; vm_compute; reflexivity. Qed.

(** The room pattern ignores case, the other two do not. *)
Lemma room_pattern_ignores_case :
  search (room_group latin1_runtime) (room_tail latin1_runtime)
    (lit "2 V" ++ [198%N] ++ lit "RELSER")
  = Some (lit "2") /\
  search (size_group latin1_runtime) (size_tail latin1_runtime)
    (lit "70 M" ++ [sup2])
  = None /\
  search (price_group latin1_runtime) (price_tail latin1_runtime)
    (lit "9000 dkk")
  = None.
Proof. repeat split; vm_compute; reflexivity. Qed.

Lemma nice_flat_text_latin1 : Forall latin1 nice_flat_text.
Proof. repeat constructor. Qed.

(** C1. On the example fragment the extractor finds the title, the price
    12500, 3 rooms and the size 70, and the listing it builds keeps the
    link as it was found, relative: the URL prefixed with the base URL is
    only the last value of the local variable [listing_url], assigned
    after the dict was built. The listing returned by
    [_process_housing_results] therefore carries the relative link. *)
Theorem extractor_keeps_relative_link (rt : runtime) (criteria : HousingCriteria) :
  agree_on latin1 rt latin1_runtime ->
  extract_listing rt criteria nice_flat =
    Ok (Some (nice_flat_listing (location criteria),
              PStr (base_url ++ nice_flat_link))) /\
  dict_get (nice_flat_listing (location criteria)) (lit "listing_url")
    = PStr nice_flat_link /\
  PStr nice_flat_link <> PStr (base_url ++ nice_flat_link) /\
  _process_housing_results rt [nice_flat] spec_criteria
    = [nice_flat_listing (location spec_criteria)].
Proof.
  intros Htables.
  assert (Hextract : forall c,
             extract_listing rt c nice_flat =
             Ok (Some (nice_flat_listing (location c),
                       PStr (base_url ++ nice_flat_link)))).
  { intros c. unfold nice_flat.
    rewrite (extract_listing_agree latin1 rt latin1_runtime Htables c
               nice_flat_text (Some [PStr nice_flat_link])
               room_letters_latin1 nice_flat_text_latin1).
    vm_compute. reflexivity. }
  split; [apply Hextract |].
  split; [reflexivity |].
  split; [discriminate |].
  unfold _process_housing_results, process_item. cbn [fold_left].
  rewrite Hextract. vm_compute. reflexivity.
Qed.

Lemma extractor_keeps_relative_link_witness :
  agree_on latin1 latin1_runtime latin1_runtime /\
  _process_housing_results latin1_runtime [nice_flat] spec_criteria
    = [nice_flat_listing (PStr (lit "copenhagen"))].
Proof.
  split; [apply agree_on_refl |].
  apply (extractor_keeps_relative_link latin1_runtime spec_criteria).
  apply agree_on_refl.
Defined.

(** ** Result processing *)

Lemma process_item_accepted (rt : runtime) (criteria : HousingCriteria)
    (listings : list dict) (item : fragment) :
  match process_item rt criteria listings item with
  | Ok listings' => listings'
  | Raise _ => listings
  end = listings ++ accepted rt criteria item.
Proof.
  unfold process_item, accepted.
  destruct (extract_listing rt criteria item) as [[[listing url] |] | e];
    cbn [bind]; rewrite ?app_nil_r; try reflexivity.
  destruct (_matches_criteria listing criteria); now rewrite ?app_nil_r.
Qed.

Lemma process_loop_accepted (rt : runtime) (criteria : HousingCriteria)
    (crawl_data : list fragment) :
  forall listings,
    fold_left
      (fun listings item =>
         match process_item rt criteria listings item with
         | Ok listings' => listings'
         | Raise _ => listings
         end)
      crawl_data listings
    = listings ++ flat_map (accepted rt criteria) crawl_data.
Proof.
  induction crawl_data as [| item rest IH]; intros listings; cbn [fold_left flat_map].
  - now rewrite app_nil_r.
  - rewrite IH, process_item_accepted, app_assoc. reflexivity.
Qed.

Lemma process_flat_map (rt : runtime) (criteria : HousingCriteria)
    (crawl_data : list fragment) :
  _process_housing_results rt crawl_data criteria
  = flat_map (accepted rt criteria) crawl_data.
Proof. unfold _process_housing_results. now rewrite process_loop_accepted. Qed.

Lemma process_app (rt : runtime) (criteria : HousingCriteria)
    (before after : list fragment) :
  _process_housing_results rt (before ++ after) criteria
  = _process_housing_results rt before criteria
    ++ _process_housing_results rt after criteria.
Proof. rewrite !process_flat_map. apply flat_map_app. Qed.

Lemma parse_price_shape (rt : runtime) (m : option str) (price : pyval) :
  parse_price rt m = Ok price ->
  match price with PNone | PFloat _ => True | _ => False end.
Proof.
  destruct m as [g |]; cbn [parse_price].
  - destruct (py_float rt _) as [f | []]; intros [= <-] || discriminate; exact I.
  - intros [= <-]. exact I.
Qed.

Lemma extract_listing_well_priced (rt : runtime) (criteria : HousingCriteria)
    (item : fragment) (listing : dict) (url : pyval) :
  extract_listing rt criteria item = Ok (Some (listing, url)) ->
  well_priced listing.
Proof.
  unfold extract_listing.
  destruct (negb (py_bool _)); [discriminate |].
  destruct (re_search (price_group rt) _ _) as [pm |]; [| discriminate].
  destruct (re_search (room_group rt) _ _) as [rm |]; [| discriminate].
  destruct (re_search (size_group rt) _ _) as [sm |]; [| discriminate].
  cbn [bind].
  destruct (parse_price rt pm) as [price |] eqn:Hprice; [| discriminate].
  destruct (parse_rooms rt rm) as [rooms |]; [| discriminate].
  destruct (parse_size rt sm) as [size |]; [| discriminate].
  destruct (find_link _) as [link |]; [| discriminate].
  destruct (first_line _) as [title |]; [| discriminate].
  cbn [bind].
  destruct (if py_bool link then _ else _) as [url' |]; [| discriminate].
  cbn [bind]. intros [= <- _].
  unfold well_priced. change (dict_get _ (lit "price_dkk")) with price.
  exact (parse_price_shape rt pm price Hprice).
Qed.

Lemma process_well_priced (rt : runtime) (criteria : HousingCriteria)
    (crawl_data : list fragment) :
  Forall well_priced (_process_housing_results rt crawl_data criteria).
Proof.
  rewrite process_flat_map. apply Forall_flat_map, Forall_forall.
  intros item _. unfold accepted.
  destruct (extract_listing rt criteria item) as [[[listing url] |] | e] eqn:E;
    try constructor.
  destruct (_matches_criteria listing criteria); constructor; [| constructor].
  exact (extract_listing_well_priced rt criteria item listing url E).
Qed.

(** ** The response formatter *)

Lemma render_listing_app (rt : runtime) (i : nat) (listing : dict) (response : str) :
  render_listing rt i listing response =
  (block <- render_listing rt i listing [] ;; Ok (response ++ block)).
Proof.
  unfold render_listing.
  destruct (py_bool (dict_get listing (lit "price_dkk")));
    [destruct (format_comma_0f _) as [price | e]; [| reflexivity] |];
    cbn [bind];
    destruct (py_bool (dict_get listing (lit "size_m2"))),
             (py_bool (dict_get listing (lit "bedrooms"))),
             (py_bool (dict_get listing (lit "listing_url")));
    f_equal; rewrite <- ?app_assoc; reflexivity.
Qed.

Lemma render_listing_head (rt : runtime) (i : nat) (listing : dict) (block : str) :
  render_listing rt i listing [] = Ok block ->
  exists body, block = block_head rt i listing ++ body.
Proof.
  unfold render_listing, block_head.
  destruct (py_bool (dict_get listing (lit "price_dkk")));
    [destruct (format_comma_0f _) as [price | e]; [| discriminate] |];
    cbn [bind];
    destruct (py_bool (dict_get listing (lit "size_m2"))),
             (py_bool (dict_get listing (lit "bedrooms"))),
             (py_bool (dict_get listing (lit "listing_url")));
    intros H; apply Ok_inj in H; subst block;
    eexists; rewrite <- ?app_assoc; cbn [app]; reflexivity.
Qed.

Lemma render_listing_total (rt : runtime) (i : nat) (listing : dict) :
  well_priced listing -> exists block, render_listing rt i listing [] = Ok block.
Proof.
  unfold well_priced, render_listing.
  destruct (dict_get listing (lit "price_dkk")) as [| b | z | f | s];
    try contradiction; intros _.
  - cbn [py_bool bind]. eexists. reflexivity.
  - destruct (py_bool (PFloat f)); cbn [format_comma_0f bind]; eexists; reflexivity.
Qed.

Lemma render_listings_blocks (rt : runtime) (listings : list dict) :
  Forall well_priced listings ->
  forall i response,
  exists blocks,
    render_listings rt i listings response = Ok (response ++ concat blocks) /\
    Forall2 (block_of rt) blocks (enumerate i listings).
Proof.
  induction 1 as [| listing rest Hpriced _ IH]; intros i response.
  - exists []. cbn. rewrite app_nil_r. split; [reflexivity | constructor].
  - destruct (render_listing_total rt i listing Hpriced) as [block Hblock].
    destruct (IH (S i) (response ++ block)) as [blocks [Hrest Hblocks]].
    exists (block :: blocks). split.
    + cbn [render_listings concat]. rewrite render_listing_app, Hblock.
      cbn [bind]. rewrite Hrest, app_assoc. reflexivity.
    + cbn [enumerate]. constructor; [| exact Hblocks].
      split; [exact Hblock |].
      exact (render_listing_head rt i listing block Hblock).
Qed.

(** The response for a list of extracted listings: never an exception. *)
Lemma construct_response_blocks (rt : runtime) (last_url : pyval)
    (listings : list dict) :
  Forall well_priced listings ->
  exists blocks,
    _construct_response rt last_url listings =
      Ok (match listings with
          | [] => no_results ++ py_str rt last_url
          | _ :: _ => found_header (length listings) ++ concat blocks
          end) /\
    Forall2 (block_of rt) blocks (enumerate 1 listings).
Proof.
  intros Hpriced.
  destruct (render_listings_blocks rt listings Hpriced 1
              (found_header (length listings))) as [blocks [Hrender Hblocks]].
  exists blocks. split; [| exact Hblocks].
  destruct listings as [| listing rest]; [reflexivity | exact Hrender].
Qed.

(** ** Order *)

Lemma process_drawn_in_order (rt : runtime) (criteria : HousingCriteria)
    (crawl_data : list fragment) :
  drawn_in_order rt criteria crawl_data
    (_process_housing_results rt crawl_data criteria).
Proof.
  rewrite process_flat_map.
  induction crawl_data as [| item rest IH]; cbn [flat_map].
  - constructor.
  - unfold accepted at 1.
    destruct (extract_listing rt criteria item) as [[[listing url] |] | e] eqn:E;
      try (apply drawn_skip; exact IH).
    destruct (_matches_criteria listing criteria).
    + cbn [app]. exact (drawn_take rt criteria item rest listing url _ E IH).
    + apply drawn_skip. exact IH.
Qed.

(** C10. The listings [_process_housing_results] returns are drawn from
    the fragments in crawl order, and the response for them is the header
    followed by their blocks in that same order, numbered from 1: the
    block of the [k]-th listing starts with [k], a dot and its title. *)
Theorem blocks_follow_crawl_order (rt : runtime) (criteria : HousingCriteria)
    (crawl_data : list fragment) (last_url : pyval) :
  let listings := _process_housing_results rt crawl_data criteria in
  drawn_in_order rt criteria crawl_data listings /\
  exists blocks,
    _construct_response rt last_url listings =
      Ok (match listings with
          | [] => no_results ++ py_str rt last_url
          | _ :: _ => found_header (length listings) ++ concat blocks
          end) /\
    Forall2 (block_of rt) blocks (enumerate 1 listings).
Proof.
  cbv zeta. split.
  - apply process_drawn_in_order.
  - apply construct_response_blocks, process_well_priced.
Qed.

(** ** Failures *)

Lemma accepted_failed_extraction (rt : runtime) (criteria : HousingCriteria)
    (item : fragment) (e : exn) :
  extract_listing rt criteria item = Raise e -> accepted rt criteria item = [].
Proof. unfold accepted. now intros ->. Qed.

Lemma accepted_failed_match (rt : runtime) (criteria : HousingCriteria)
    (item : fragment) (listing : dict) (url : pyval) (e : exn) :
  extract_listing rt criteria item = Ok (Some (listing, url)) ->
  matches_criteria_body listing criteria = Raise e ->
  accepted rt criteria item = [].
Proof.
  unfold accepted, _matches_criteria. now intros -> ->.
Qed.

(** C5. When extracting a fragment raises, or matching its listing
    raises, the result is what the fragments before it give followed by
    what the fragments after it give; and a search whose crawl returned
    such a fragment answers with the response for those listings, not
    with the apology. *)
Theorem failures_stay_local (rt : runtime) (criteria : HousingCriteria)
    (before : list fragment) (bad : fragment) (after : list fragment) :
  (exists e, extract_listing rt criteria bad = Raise e) \/
  (exists listing url e,
      extract_listing rt criteria bad = Ok (Some (listing, url)) /\
      matches_criteria_body listing criteria = Raise e) ->
  _process_housing_results rt (before ++ bad :: after) criteria
  = _process_housing_results rt before criteria
    ++ _process_housing_results rt after criteria /\
  forall (sv : services) (self : agent) (query url : str),
    _parse_query sv query = Ok criteria ->
    construct_search_url rt criteria = Ok url ->
    _perform_crawl sv url = Ok (before ++ bad :: after) ->
    exists response,
      _construct_response rt (PStr url)
        (_process_housing_results rt before criteria
         ++ _process_housing_results rt after criteria) = Ok response /\
      search_housing rt sv self query
      = (response, {| last_criteria := Some criteria; last_url := PStr url |}).
Proof.
  intros Hbad.
  assert (Hnone : accepted rt criteria bad = []).
  { destruct Hbad as [[e He] | [listing [url [e [He Hm]]]]].
    - exact (accepted_failed_extraction rt criteria bad e He).
    - exact (accepted_failed_match rt criteria bad listing url e He Hm). }
  assert (Hsame : _process_housing_results rt (before ++ bad :: after) criteria
                  = _process_housing_results rt before criteria
                    ++ _process_housing_results rt after criteria).
  { rewrite process_app. f_equal.
    rewrite !process_flat_map. cbn [flat_map]. now rewrite Hnone. }
  split; [exact Hsame |].
  intros sv self query url Hparse Hurl Hcrawl.
  assert (Hpriced : Forall well_priced
                      (_process_housing_results rt before criteria
                       ++ _process_housing_results rt after criteria)).
  { rewrite <- Hsame. apply process_well_priced. }
  destruct (construct_response_blocks rt (PStr url) _ Hpriced)
    as [blocks [Hresponse _]].
  eexists. split; [exact Hresponse |].
  unfold search_housing, _execute_search.
  rewrite Hparse, Hurl, Hcrawl. cbn [result_listings last_url last_criteria].
  rewrite Hsame, Hresponse. reflexivity.
Qed.

Lemma failures_stay_local_witness :
  (extract_listing latin1_runtime spec_criteria numeric_text = Raise TypeError /\
   _process_housing_results latin1_runtime
     ([nice_flat] ++ numeric_text :: [nice_flat]) spec_criteria
   = _process_housing_results latin1_runtime [nice_flat] spec_criteria
     ++ _process_housing_results latin1_runtime [nice_flat] spec_criteria) /\
  (matches_criteria_body (nice_flat_listing (PStr (lit "copenhagen"))) quoted_criteria
   = Raise TypeError /\
   _process_housing_results latin1_runtime
     ([null_link] ++ nice_flat :: [numeric_text]) quoted_criteria
   = _process_housing_results latin1_runtime [null_link] quoted_criteria
     ++ _process_housing_results latin1_runtime [numeric_text] quoted_criteria).
Proof.
  split; (split; [reflexivity |]).
  - apply (failures_stay_local latin1_runtime spec_criteria
             [nice_flat] numeric_text [nice_flat]).
    left. exists TypeError. reflexivity.
  - apply (failures_stay_local latin1_runtime quoted_criteria
             [null_link] nice_flat [numeric_text]).
    right.
    exists (nice_flat_listing (PStr (lit "copenhagen"))),
           (PStr (base_url ++ nice_flat_link)), TypeError.
    split; reflexivity.
Defined.

(** ** The title placeholder *)

Lemma untitled_text_latin1 : Forall latin1 untitled_text.
Proof. repeat constructor. Qed.

Lemma block_head_empty_title (rt : runtime) (i : nat) (listing : dict) :
  dict_lookup listing (lit "title") = Some (PStr []) ->
  block_head rt i listing = str_of_nat i ++ lit ". " ++ [nl].
Proof.
  intros Htitle. unfold block_head, dict_get_default. rewrite Htitle. reflexivity.
Qed.

(** C6, on the code. The listing extracted from [untitled] has a title
    entry holding the empty string; since the entry is there, the
    formatter prints it, and the block reads [1. ] with nothing after it:
    the response does not have the placeholder. *)
Theorem empty_title_is_printed_bare (rt : runtime) (last_url : pyval) :
  agree_on latin1 rt latin1_runtime ->
  _process_housing_results rt [untitled] spec_criteria = [untitled_listing] /\
  dict_lookup untitled_listing (lit "title") = Some (PStr []) /\
  _construct_response rt last_url [untitled_listing] = Ok untitled_response /\
  str_contains (lit "Unlisted Property") untitled_response = false.
Proof.
  intros Htables. split; [| split; [| split]]; try reflexivity.
  unfold _process_housing_results, process_item, untitled. cbn [fold_left].
  rewrite (extract_listing_agree latin1 rt latin1_runtime Htables spec_criteria
             untitled_text None room_letters_latin1 untitled_text_latin1).
  vm_compute. reflexivity.
Qed.

Lemma empty_title_is_printed_bare_witness :
  agree_on latin1 latin1_runtime latin1_runtime /\
  _construct_response latin1_runtime PNone
    (_process_housing_results latin1_runtime [untitled] spec_criteria)
  = Ok untitled_response.
Proof.
  split; [apply agree_on_refl |].
  destruct (empty_title_is_printed_bare latin1_runtime PNone
              (agree_on_refl latin1 latin1_runtime)) as [-> [_ [-> _]]].
  reflexivity.
Defined.

(** ** The apology *)

Lemma search_housing_sets_last_url (rt : runtime) (sv : services) (self : agent)
    (query : str) (criteria : HousingCriteria) (url : str) :
  _parse_query sv query = Ok criteria ->
  construct_search_url rt criteria = Ok url ->
  snd (search_housing rt sv self query)
  = {| last_criteria := Some criteria; last_url := PStr url |}.
Proof.
  intros Hparse Hurl. unfold search_housing, _execute_search.
  rewrite Hparse, Hurl.
  destruct (_perform_crawl sv url) as [crawl_status | e];
    cbn [result_listings last_url last_criteria];
    destruct (_construct_response rt _ _); reflexivity.
Qed.

(** A criteria object whose location is not a string stops the search
    before a URL is resolved: the apology again shows [last_url] as it
    stood. *)
Lemma url_failure_reports_last_url (rt : runtime) (sv : services) (self : agent)
    (query : str) (criteria : HousingCriteria) (e : exn) :
  _parse_query sv query = Ok criteria ->
  construct_search_url rt criteria = Raise e ->
  search_housing rt sv self query
  = (apology ++ py_str rt (last_url self),
     {| last_criteria := Some criteria; last_url := last_url self |}).
Proof.
  intros Hparse Hurl. unfold search_housing, _execute_search.
  rewrite Hparse, Hurl. reflexivity.
Qed.

(** C9. When the query cannot be parsed, the answer is the apology
    followed by the agent's [last_url] as it stood before the call, and
    the agent is left as it was. On a new agent that is the text [None];
    after a search that resolved a URL it is the URL of that earlier
    search. *)
Theorem parse_failure_reports_last_url (rt : runtime) (sv : services)
    (self : agent) (query : str) (e : exn) :
  _parse_query sv query = Raise e ->
  search_housing rt sv self query = (apology ++ py_str rt (last_url self), self) /\
  (last_url self = PNone ->
   fst (search_housing rt sv self query) = apology ++ lit "None") /\
  fst (search_housing rt sv new_agent query) = apology ++ lit "None" /\
  forall (earlier : str) (criteria : HousingCriteria) (url : str),
    _parse_query sv earlier = Ok criteria ->
    construct_search_url rt criteria = Ok url ->
    fst (search_housing rt sv (snd (search_housing rt sv self earlier)) query)
    = apology ++ url.
Proof.
  intros Hparse.
  assert (Hany : forall a, search_housing rt sv a query
                           = (apology ++ py_str rt (last_url a), a)).
  { intros a. unfold search_housing. rewrite Hparse. reflexivity. }
  split; [apply Hany |].
  split; [intros Hnone; rewrite Hany, Hnone; reflexivity |].
  split; [rewrite Hany; reflexivity |].
  intros earlier criteria url Hearlier Hurl.
  rewrite Hany, (search_housing_sets_last_url rt sv self earlier criteria url Hearlier Hurl).
  reflexivity.
Qed.

Lemma parse_failure_reports_last_url_witness :
  _parse_query (sample_services (lit "2 rooms in copenhagen under 19000")) (lit "hello")
  = Raise ValueError /\
  fst (search_housing latin1_runtime
         (sample_services (lit "2 rooms in copenhagen under 19000"))
         new_agent (lit "hello"))
  = apology ++ lit "None" /\
  fst (search_housing latin1_runtime
         (sample_services (lit "2 rooms in copenhagen under 19000"))
         (snd (search_housing latin1_runtime
                 (sample_services (lit "2 rooms in copenhagen under 19000"))
                 new_agent (lit "2 rooms in copenhagen under 19000")))
         (lit "hello"))
  = apology
    ++ lit "https://www.boligportal.dk/en/rental-properties/copenhagen/2-rooms/?max_monthly_rent=19000".
Proof.
  split; [reflexivity |].
  destruct (parse_failure_reports_last_url latin1_runtime
              (sample_services (lit "2 rooms in copenhagen under 19000"))
              new_agent (lit "hello") ValueError eq_refl)
    as [_ [_ [Hfirst Hlater]]].
  split; [exact Hfirst |].
  apply (Hlater (lit "2 rooms in copenhagen under 19000") spec_criteria); reflexivity.
Defined.

(** * More of the code *)

(** ** What a match is made of *)

Lemma star_run_sound (r : regex) (step : str -> list str) :
  (forall s s', In s' (step s) -> exists pre, s = pre ++ s' /\ accepts r pre) ->
  forall fuel s s',
    In s' (star_run step fuel s) ->
    exists pre, s = pre ++ s' /\ accepts (Star r) pre.
Proof.
  intros Hstep. induction fuel as [| fuel IH]; intros s s' Hin; cbn [star_run] in Hin.
  - destruct Hin as [<- | []]. exists []. split; [reflexivity | constructor].
  - apply in_app_or in Hin. destruct Hin as [Hin | [<- | []]].
    + apply in_flat_map in Hin. destruct Hin as [mid [Hmid Hin]].
      destruct (Nat.ltb (length mid) (length s)); [| destruct Hin].
      destruct (Hstep s mid Hmid) as [u [-> Hu]].
      destruct (IH mid s' Hin) as [v [-> Hv]].
      exists (u ++ v). split; [now rewrite app_assoc | now constructor].
    + exists []. split; [reflexivity | constructor].
Qed.

Lemma run_sound (r : regex) :
  forall s s', In s' (run r s) -> exists pre, s = pre ++ s' /\ accepts r pre.
Proof.
  induction r as [| p | r1 IH1 r2 IH2 | r1 IH1 r2 IH2 | r IH];
    intros s s' Hin; cbn [run] in Hin.
  - destruct Hin as [<- | []]. exists []. split; [reflexivity | constructor].
  - destruct s as [| c s]; [destruct Hin |].
    destruct (p c) eqn:Hp; [| destruct Hin].
    destruct Hin as [<- | []]. exists [c]. split; [reflexivity | now constructor].
  - apply in_flat_map in Hin. destruct Hin as [mid [Hmid Hin]].
    destruct (IH1 s mid Hmid) as [u [-> Hu]].
    destruct (IH2 mid s' Hin) as [v [-> Hv]].
    exists (u ++ v). split; [now rewrite app_assoc | now constructor].
  - apply in_app_or in Hin. destruct Hin as [Hin | Hin].
    + destruct (IH1 s s' Hin) as [u [-> Hu]]. exists u. split; [reflexivity |].
      now apply accepts_alt_l.
    + destruct (IH2 s s' Hin) as [u [-> Hu]]. exists u. split; [reflexivity |].
      now apply accepts_alt_r.
  - exact (star_run_sound r (run r) IH (length s) s s' Hin).
Qed.

Lemma first_capture_sound (group tail : regex) (s : str) (ends : list str) (g : str) :
  (forall s', In s' ends -> exists pre, s = pre ++ s' /\ accepts group pre) ->
  first_capture tail s ends = Some g ->
  exists t rest, s = g ++ t ++ rest /\ accepts group g /\ accepts tail t.
Proof.
  induction ends as [| s' ends IH]; intros Hends; cbn [first_capture].
  - discriminate.
  - destruct (run tail s') as [| rest more] eqn:Htail.
    + apply IH. intros x Hx. apply Hends. now right.
    + intros [= <-].
      destruct (Hends s' (or_introl eq_refl)) as [pre [-> Hpre]].
      destruct (run_sound tail s' rest) as [t [-> Ht]].
      { rewrite Htail. now left. }
      exists t, rest. rewrite length_app, Nat.add_sub.
      rewrite firstn_app, Nat.sub_diag, firstn_all, firstn_O, app_nil_r.
      repeat split; assumption.
Qed.

(** What [search] reports is a stretch of the subject that [group]
    matches, directly followed by a stretch that [tail] matches. *)
Lemma search_sound (group tail : regex) (s g : str) :
  search group tail s = Some g ->
  exists before t rest,
    s = before ++ g ++ t ++ rest /\ accepts group g /\ accepts tail t.
Proof.
  induction s as [| c s IH]; cbn [search].
  - destruct (match_here group tail []) as [g' |] eqn:E; [| discriminate].
    intros [= <-]. unfold match_here in E.
    destruct (first_capture_sound group tail [] (run group []) g' (run_sound group []) E)
      as [t [rest [Hs [Hg Ht]]]].
    exists [], t, rest. auto.
  - destruct (match_here group tail (c :: s)) as [g' |] eqn:E.
    + intros [= <-]. unfold match_here in E.
      destruct (first_capture_sound group tail (c :: s) (run group (c :: s)) g'
                  (run_sound group (c :: s)) E)
        as [t [rest [Hs [Hg Ht]]]].
      exists [], t, rest. auto.
    + intros Hg. destruct (IH Hg) as [before [t [rest [-> [Hgroup Htail]]]]].
      exists (c :: before), t, rest. auto.
Qed.

Lemma accepts_within (Q : char -> Prop) (r : regex) (u : str) :
  accepts r u -> tests_within Q r -> Forall Q u.
Proof.
  induction 1 as [| p c Hp | r1 r2 u v _ IHu _ IHv | r1 r2 u _ IH | r1 r2 u _ IH
                  | r | r u v _ IHu _ IHv];
    cbn [tests_within]; intros Hr.
  - constructor.
  - constructor; [exact (Hr c Hp) | constructor].
  - apply Forall_app. split; [apply IHu | apply IHv]; apply Hr.
  - apply IH, Hr.
  - apply IH, Hr.
  - constructor.
  - apply Forall_app. split; [apply IHu | apply IHv]; exact Hr.
Qed.



Lemma digits_value_decimal (rt : runtime) (s : str) :
  Forall (is_decimal rt) s -> exists z, digits_value rt s = Some z.
Proof.
  unfold digits_value. generalize 0%Z. intros acc Hs. revert acc.
  induction Hs as [| c s [d Hd] _ IH]; intros acc; cbn [fold_left].
  - exists acc. reflexivity.
  - rewrite Hd. apply IH.
Qed.





Lemma find_link_result (ls : list pyval) (link : pyval) :
  find_link ls = Ok link ->
  link = PNone \/ exists u, link = PStr u /\ str_contains (lit "/rental-properties/") u = true.
Proof.
  induction ls as [| l ls IH]; cbn [find_link].
  - intros [= <-]. now left.
  - destruct l; cbn [py_in bind]; try discriminate.
    destruct (str_contains _ s) eqn:E; [| exact IH].
    intros [= <-]. right. eauto.
Qed.



(** ** Substrings *)



(** ** What the extractor puts in a listing *)

Lemma takes_first_line (s : str) :
  exists rest,
    s = hd [] (split nl s) ++ rest /\
    ~ In nl (hd [] (split nl s)) /\
    (rest = [] \/ exists more, rest = nl :: more).
Proof.
  induction s as [| c s [rest [Hs [Hno Hrest]]]]; cbn [split].
  - exists []. cbn. tauto.
  - destruct (N.eqb c nl) eqn:Hc.
    + apply N.eqb_eq in Hc. subst c. exists (nl :: s). cbn. split; [reflexivity |].
      split; [tauto | right; now exists s].
    + apply N.eqb_neq in Hc.
      destruct (split nl s) as [| piece pieces] eqn:Hsplit; cbn [hd] in *.
      * exists rest. cbn. cbn in Hs. subst s. split; [reflexivity |].
        split; [| exact Hrest]. intros [H | []]. now apply Hc.
      * exists rest. cbn [app]. rewrite Hs at 1. split; [reflexivity |].
        split; [| exact Hrest]. intros [H | H]; [now apply Hc | now apply Hno].
Qed.

(** Where each entry of an extracted listing comes from. *)
Lemma extract_listing_entries (rt : runtime) (criteria : HousingCriteria)
    (item : fragment) (listing : dict) (url : pyval) :
  extract_listing rt criteria item = Ok (Some (listing, url)) ->
  exists (t : str) (price size rooms link : pyval),
    text item = Some (PStr t) /\ t <> [] /\
    parse_price rt (search (price_group rt) (price_tail rt) t) = Ok price /\
    parse_rooms rt (search (room_group rt) (room_tail rt) t) = Ok rooms /\
    parse_size rt (search (size_group rt) (size_tail rt) t) = Ok size /\
    find_link (match links item with Some l => l | None => [] end) = Ok link /\
    listing = listing_of (PStr (hd [] (split nl t))) price (location criteria)
                size rooms link.
Proof.
  unfold extract_listing.
  destruct (text item) as [v |]; [| discriminate].
  destruct v as [| b | z | f | t]; cbn [py_bool negb];
    try discriminate;
    try (destruct b; discriminate);
    try (destruct (negb (Z.eqb z 0)); discriminate);
    try (destruct f; discriminate).
  destruct t as [| c t]; [discriminate |]. cbn [negb re_search bind].
  destruct (parse_price rt _) as [price |] eqn:Hprice; [| discriminate].
  destruct (parse_rooms rt _) as [rooms |] eqn:Hrooms; [| discriminate].
  destruct (parse_size rt _) as [size |] eqn:Hsize; [| discriminate].
  cbn [bind].
  destruct (find_link _) as [link |] eqn:Hlink; [| discriminate].
  cbn [bind first_line].
  destruct (if py_bool link then _ else _) as [url' |]; [| discriminate].
  cbn [bind]. intros [= <- _].
  exists (c :: t), price, size, rooms, link.
  repeat split; try assumption. discriminate.
Qed.

Lemma parse_rooms_shape (rt : runtime) (m : option str) (rooms : pyval) :
  parse_rooms rt m = Ok rooms -> rooms = PNone \/ exists z, rooms = PInt z.
Proof.
  destruct m as [g |]; cbn [parse_rooms].
  - destruct (py_int rt g) as [z |]; cbn [bind]; [| discriminate].
    intros [= <-]. right. now exists z.
  - intros [= <-]. now left.
Qed.

Lemma parse_size_shape (rt : runtime) (m : option str) (size : pyval) :
  parse_size rt m = Ok size -> size = PNone \/ exists f, size = PFloat f.
Proof.
  destruct m as [g |]; cbn [parse_size].
  - destruct (py_float rt g) as [f |]; cbn [bind]; [| discriminate].
    intros [= <-]. right. now exists f.
  - intros [= <-]. now left.
Qed.

(** X2. Every listing a search returns has the seven entries of the dict
    literal, carries the location of the criteria, has a price and a room
    count that are present and not zero, and passes the matcher. *)
Theorem returned_listings_are_complete (rt : runtime) (criteria : HousingCriteria)
    (crawl_data : list fragment) :
  Forall
    (fun listing =>
       returned_shape criteria listing /\ _matches_criteria listing criteria = true)
    (_process_housing_results rt crawl_data criteria).
Proof.
  rewrite process_flat_map. apply Forall_flat_map, Forall_forall.
  intros item _. unfold accepted.
  destruct (extract_listing rt criteria item) as [[[listing url] |] | e] eqn:E;
    try constructor.
  destruct (_matches_criteria listing criteria) eqn:Hm; constructor; [| constructor].
  split; [| exact Hm].
  destruct (extract_listing_entries rt criteria item listing url E)
    as [t [price [size [rooms [link [_ [_ [Hp [Hr [Hs [Hl ->]]]]]]]]]]].
  pose proof (parse_price_shape rt _ price Hp) as Hprice.
  destruct (parse_rooms_shape rt _ rooms Hr) as [-> | [z ->]].
  { rewrite matcher_rejects_falsy in Hm; [discriminate | right; left; reflexivity]. }
  destruct price as [| | | f |]; try contradiction.
  { rewrite matcher_rejects_falsy in Hm; [discriminate | left; reflexivity]. }
  destruct (py_bool (PFloat f)) eqn:Hf.
  2:{ rewrite matcher_rejects_falsy in Hm; [discriminate | left; exact Hf]. }
  destruct (Z.eq_dec z 0) as [-> | Hz].
  { rewrite matcher_rejects_falsy in Hm; [discriminate | right; left; reflexivity]. }
  destruct (py_bool (location criteria)) eqn:Hloc.
  2:{ rewrite matcher_rejects_falsy in Hm; [discriminate | right; right; exact Hloc]. }
  exists (hd [] (split nl t)), f, z, size, link.
  repeat split; try assumption.
  - exact (parse_size_shape rt _ size Hs).
  - exact (find_link_result _ link Hl).
Qed.

(** X3. The title of an extracted listing is the text of the fragment up
    to its first line break: it has no line break in it, and what follows
    it in the text is nothing or starts with one. *)
Theorem title_is_first_line (rt : runtime) (criteria : HousingCriteria)
    (item : fragment) (listing : dict) (url : pyval) :
  extract_listing rt criteria item = Ok (Some (listing, url)) ->
  exists t title rest,
    text item = Some (PStr t) /\
    dict_lookup listing (lit "title") = Some (PStr title) /\
    t = title ++ rest /\
    ~ In nl title /\
    (rest = [] \/ exists more, rest = nl :: more).
Proof.
  intros E.
  destruct (extract_listing_entries rt criteria item listing url E)
    as [t [price [size [rooms [link [Ht [_ [_ [_ [_ [_ ->]]]]]]]]]]].
  destruct (takes_first_line t) as [rest [Hsplit [Hno Hrest]]].
  exists t, (hd [] (split nl t)), rest.
  repeat split; try assumption.
Qed.

Lemma title_is_first_line_witness :
  exists t title rest,
    text nice_flat = Some (PStr t) /\
    dict_lookup (nice_flat_listing (PStr (lit "copenhagen"))) (lit "title")
      = Some (PStr title) /\
    t = title ++ rest /\
    ~ In nl title /\
    (rest = [] \/ exists more, rest = nl :: more).
Proof.
  apply (title_is_first_line latin1_runtime spec_criteria nice_flat
           (nice_flat_listing (PStr (lit "copenhagen")))
           (PStr (base_url ++ nice_flat_link))).
  vm_compute. reflexivity.
Defined.

(** ** The link of a listing *)




(** ** How much a search returns *)

Lemma accepted_at_most_one (rt : runtime) (criteria : HousingCriteria)
    (item : fragment) :
  length (accepted rt criteria item) <= (if has_text item then 1 else 0).
Proof.
  unfold accepted, has_text, extract_listing.
  destruct (py_bool (match text item with Some v => v | None => PStr [] end));
    cbn [negb]; [| cbn; lia].
  match goal with
  | |- context [match ?x with Ok _ => _ | Raise _ => _ end] =>
      destruct x as [[[listing url] |] | e]
  end; cbn [length]; try lia.
  destruct (_matches_criteria listing criteria); cbn [length]; lia.
Qed.

(** X5. A search returns at most one listing for each fragment that has
    a text, and none for the others: it never returns more listings than
    there are fragments with a text. *)
Theorem at_most_one_listing_per_text (rt : runtime) (criteria : HousingCriteria)
    (crawl_data : list fragment) :
  length (_process_housing_results rt crawl_data criteria)
  <= length (filter has_text crawl_data) /\
  _process_housing_results rt (filter has_text crawl_data) criteria
  = _process_housing_results rt crawl_data criteria.
Proof.
  rewrite !process_flat_map. split.
  - induction crawl_data as [| item rest IH]; cbn [flat_map filter length]; [lia |].
    rewrite length_app.
    pose proof (accepted_at_most_one rt criteria item) as Hone.
    destruct (has_text item); cbn [length]; lia.
  - induction crawl_data as [| item rest IH]; cbn [flat_map filter]; [reflexivity |].
    pose proof (accepted_at_most_one rt criteria item) as Hone.
    destruct (has_text item); cbn [flat_map]; [now rewrite IH |].
    destruct (accepted rt criteria item); [exact IH | cbn in Hone; lia].
Qed.

(** ** The criteria fields a search reads *)

Lemma extract_listing_reads_location (rt : runtime) (c1 c2 : HousingCriteria)
    (item : fragment) :
  location c1 = location c2 ->
  extract_listing rt c1 item = extract_listing rt c2 item.
Proof. intros H. unfold extract_listing. rewrite H. reflexivity. Qed.

Lemma process_reads_three_fields (rt : runtime) (c1 c2 : HousingCriteria)
    (crawl_data : list fragment) :
  location c1 = location c2 ->
  max_price c1 = max_price c2 ->
  min_bedrooms c1 = min_bedrooms c2 ->
  _process_housing_results rt crawl_data c1 = _process_housing_results rt crawl_data c2.
Proof.
  intros Hl Hp Hb. rewrite !process_flat_map.
  apply flat_map_same. intros item. unfold accepted.
  rewrite (extract_listing_reads_location rt c1 c2 item Hl).
  destruct (extract_listing rt c2 item) as [[[listing url] |] | e]; try reflexivity.
  unfold _matches_criteria, matches_criteria_body. rewrite Hp, Hb. reflexivity.
Qed.

Lemma construct_search_url_reads_five_fields (rt : runtime) (c1 c2 : HousingCriteria) :
  same_search c1 c2 -> construct_search_url rt c1 = construct_search_url rt c2.
Proof.
  intros [Hl [Hp [Hb [Ht Hs]]]].
  unfold construct_search_url, search_params. rewrite Hl, Hp, Hb, Ht, Hs. reflexivity.
Qed.

(** X6. What [search_housing] answers depends on five fields of the
    criteria only (location, max_price, min_bedrooms, property_type,
    min_size_m2): with the same crawler, two readings of a query that
    differ in max_size_m2, furnished, immediate_availability or
    pets_allowed get the same response and leave the same last URL. *)
Theorem search_reads_five_fields (rt : runtime) (sv1 sv2 : services) (self : agent)
    (query : str) (c1 c2 : HousingCriteria) :
  _parse_query sv1 query = Ok c1 ->
  _parse_query sv2 query = Ok c2 ->
  (forall url, _perform_crawl sv1 url = _perform_crawl sv2 url) ->
  same_search c1 c2 ->
  fst (search_housing rt sv1 self query) = fst (search_housing rt sv2 self query) /\
  last_url (snd (search_housing rt sv1 self query))
  = last_url (snd (search_housing rt sv2 self query)).
Proof.
  intros H1 H2 Hcrawl Hsame.
  pose proof (construct_search_url_reads_five_fields rt c1 c2 Hsame) as Hurl.
  destruct Hsame as [Hl [Hp [Hb _]]].
  unfold search_housing, _execute_search. rewrite H1, H2, Hurl.
  destruct (construct_search_url rt c2) as [url |]; [| split; reflexivity].
  rewrite Hcrawl.
  destruct (_perform_crawl sv2 url) as [crawl_status |];
    cbn [result_listings last_url last_criteria].
  - rewrite (process_reads_three_fields rt c1 c2 crawl_status Hl Hp Hb).
    destruct (_construct_response rt (PStr url) _); split; reflexivity.
  - destruct (_construct_response rt (PStr url) []); split; reflexivity.
Qed.

Lemma search_reads_five_fields_witness :
  fst (search_housing latin1_runtime
         (fixed_services spec_criteria [nice_flat; untitled]) new_agent (lit "q"))
  = fst (search_housing latin1_runtime
           (fixed_services
              {| location := PStr (lit "copenhagen"); max_price := PInt 19000;
                 min_bedrooms := PInt 2; property_type := PStr (lit "all");
                 min_size_m2 := PNone; max_size_m2 := PInt 40;
                 furnished := PBool true; immediate_availability := PBool true;
                 pets_allowed := PBool true |}
              [nice_flat; untitled]) new_agent (lit "q")).
Proof.
  apply (search_reads_five_fields latin1_runtime
           (fixed_services spec_criteria [nice_flat; untitled])
           (fixed_services
              {| location := PStr (lit "copenhagen"); max_price := PInt 19000;
                 min_bedrooms := PInt 2; property_type := PStr (lit "all");
                 min_size_m2 := PNone; max_size_m2 := PInt 40;
                 furnished := PBool true; immediate_availability := PBool true;
                 pets_allowed := PBool true |}
              [nice_flat; untitled])
           new_agent (lit "q") spec_criteria
           {| location := PStr (lit "copenhagen"); max_price := PInt 19000;
              min_bedrooms := PInt 2; property_type := PStr (lit "all");
              min_size_m2 := PNone; max_size_m2 := PInt 40;
              furnished := PBool true; immediate_availability := PBool true;
              pets_allowed := PBool true |}).
  - reflexivity.
  - reflexivity.
  - intros url. reflexivity.
  - repeat split.
Defined.

(** ** The answers of a search *)



(** X8. A crawl that fails is answered like a crawl that found nothing to
    return: with the no-results message and the URL just built, not with
    the apology. *)
Theorem failed_crawl_reads_as_no_results (rt : runtime) (sv : services)
    (self : agent) (query : str) (criteria : HousingCriteria) (url : str) :
  _parse_query sv query = Ok criteria ->
  construct_search_url rt criteria = Ok url ->
  (exists e, _perform_crawl sv url = Raise e) \/
  (exists crawl_data,
      _perform_crawl sv url = Ok crawl_data /\
      _process_housing_results rt crawl_data criteria = []) ->
  search_housing rt sv self query
  = (no_results ++ url, {| last_criteria := Some criteria; last_url := PStr url |}).
Proof.
  intros Hparse Hurl Hcrawl. unfold search_housing, _execute_search.
  rewrite Hparse, Hurl.
  destruct Hcrawl as [[e ->] | [crawl_data [-> Hnone]]];
    cbn [result_listings last_url last_criteria]; rewrite ?Hnone; reflexivity.
Qed.

Lemma failed_crawl_reads_as_no_results_witness :
  search_housing latin1_runtime (offline_services spec_criteria) new_agent (lit "q")
  = (no_results
     ++ lit "https://www.boligportal.dk/en/rental-properties/copenhagen/2-rooms/?max_monthly_rent=19000",
     {| last_criteria := Some spec_criteria;
        last_url := PStr (lit "https://www.boligportal.dk/en/rental-properties/copenhagen/2-rooms/?max_monthly_rent=19000") |}).
Proof.
  apply (failed_crawl_reads_as_no_results latin1_runtime
           (offline_services spec_criteria) new_agent (lit "q") spec_criteria).
  - reflexivity.
  - reflexivity.
  - left. exists ValueError. reflexivity.
Defined.

(** ** Criteria that match more, and criteria that match nothing *)

Lemma matcher_accepts_iff (listing : dict) (criteria : HousingCriteria) :
  _matches_criteria listing criteria = true <->
  py_bool (dict_get listing (lit "price_dkk")) = true /\
  py_bool (dict_get listing (lit "bedrooms")) = true /\
  py_bool (dict_get listing (lit "location")) = true /\
  py_gt (dict_get listing (lit "price_dkk")) (max_price criteria) = Ok false /\
  py_lt (dict_get listing (lit "bedrooms")) (min_bedrooms criteria) = Ok false.
Proof.
  unfold _matches_criteria, matches_criteria_body. cbn [forallb].
  destruct (py_bool (dict_get listing (lit "price_dkk")));
    destruct (py_bool (dict_get listing (lit "bedrooms")));
    destruct (py_bool (dict_get listing (lit "location")));
    cbn [andb negb]; try (split; [discriminate | intros [? [? [? _]]]; discriminate]).
  destruct (py_gt _ _) as [[|] | e]; cbn [bind];
    try (split; [discriminate | intros [_ [_ [_ [? _]]]]; discriminate]).
  destruct (py_lt _ _) as [[|] | e]; cbn [bind];
    try (split; [discriminate | intros [_ [_ [_ [_ ?]]]]; discriminate]).
  split; auto.
Qed.

Lemma Some_inj {A : Type} (a b : A) : Some a = Some b -> a = b.
Proof. intros H. injection H as ->. reflexivity. Qed.

Ltac compare_mono :=
  split; intros H; apply Some_inj in H; f_equal;
  rewrite ?Z.compare_gt_iff, ?Z.compare_lt_iff in *.

Lemma float_compare_int_mono (f : spec_float) (z z' : Z) :
  (z <= z')%Z ->
  (float_compare_int f z' = Some Gt -> float_compare_int f z = Some Gt) /\
  (float_compare_int f z = Some Lt -> float_compare_int f z' = Some Lt).
Proof.
  intros Hz. destruct f as [s | s | | s m e]; cbn [float_compare_int].
  - compare_mono; lia.
  - split; intros H; exact H.
  - split; discriminate.
  - destruct (Z.leb 0 e) eqn:He.
    + compare_mono; lia.
    + apply Z.leb_gt in He.
      assert (Hpow : (0 < 2 ^ (- e))%Z) by (apply Z.pow_pos_nonneg; lia).
      compare_mono; nia.
Qed.

Lemma number_compare_mono (x : number) (z z' : Z) :
  (z <= z')%Z ->
  (number_compare x (NumInt z') = Some Gt -> number_compare x (NumInt z) = Some Gt) /\
  (number_compare x (NumInt z) = Some Lt -> number_compare x (NumInt z') = Some Lt).
Proof.
  intros Hz. destruct x as [y | f]; cbn [number_compare].
  - compare_mono; lia.
  - exact (float_compare_int_mono f z z' Hz).
Qed.

Lemma py_gt_relaxed (a : pyval) (z z' : Z) :
  (z <= z')%Z -> py_gt a (PInt z) = Ok false -> py_gt a (PInt z') = Ok false.
Proof.
  intros Hz. unfold py_gt, py_compare.
  destruct a; cbn [as_number bind]; try discriminate;
    match goal with
    | |- context [number_compare ?x (NumInt z)] =>
        destruct (number_compare_mono x z z' Hz) as [Hgt _];
        destruct (number_compare x (NumInt z')) as [[| |] |];
        try reflexivity; rewrite (Hgt eq_refl); discriminate
    end.
Qed.

Lemma py_lt_relaxed (a : pyval) (z z' : Z) :
  (z' <= z)%Z -> py_lt a (PInt z) = Ok false -> py_lt a (PInt z') = Ok false.
Proof.
  intros Hz. unfold py_lt, py_compare.
  destruct a; cbn [as_number bind]; try discriminate;
    match goal with
    | |- context [number_compare ?x (NumInt z)] =>
        destruct (number_compare_mono x z' z Hz) as [_ Hlt];
        destruct (number_compare x (NumInt z')) as [[| |] |];
        try reflexivity; rewrite (Hlt eq_refl); discriminate
    end.
Qed.

(** X9. Raising an integer price ceiling or lowering an integer room
    minimum never loses a listing: whatever a search returned under the
    stricter criteria it also returns under the laxer ones. *)
Theorem relaxing_criteria_keeps_listings (rt : runtime) (strict lax : HousingCriteria)
    (crawl_data : list fragment) (mp mp' mb mb' : Z) :
  location strict = location lax ->
  max_price strict = PInt mp -> max_price lax = PInt mp' ->
  min_bedrooms strict = PInt mb -> min_bedrooms lax = PInt mb' ->
  (mp <= mp')%Z ->
  (mb' <= mb)%Z ->
  forall listing,
    In listing (_process_housing_results rt crawl_data strict) ->
    In listing (_process_housing_results rt crawl_data lax).
Proof.
  intros Hloc Hmp Hmp' Hmb Hmb' Hp Hb listing.
  rewrite !process_flat_map, !in_flat_map.
  intros [item [Hitem Hin]]. exists item. split; [exact Hitem |].
  unfold accepted in *.
  rewrite <- (extract_listing_reads_location rt strict lax item Hloc).
  destruct (extract_listing rt strict item) as [[[l url] |] | e]; try exact Hin.
  destruct (_matches_criteria l strict) eqn:Hm; [| destruct Hin].
  apply matcher_accepts_iff in Hm. destruct Hm as [H1 [H2 [H3 [Hgt Hlt]]]].
  rewrite Hmp in Hgt. rewrite Hmb in Hlt.
  assert (Hlax : _matches_criteria l lax = true).
  { apply matcher_accepts_iff. rewrite Hmp', Hmb'. repeat split; try assumption.
    - exact (py_gt_relaxed _ mp mp' Hp Hgt).
    - exact (py_lt_relaxed _ mb mb' Hb Hlt). }
  rewrite Hlax. exact Hin.
Qed.

Lemma relaxing_criteria_keeps_listings_witness :
  In (nice_flat_listing (PStr (lit "copenhagen")))
     (_process_housing_results latin1_runtime [untitled; nice_flat]
        (mkCriteria (PStr (lit "copenhagen")) (PInt 25000) (PInt 1))).
Proof.
  apply (relaxing_criteria_keeps_listings latin1_runtime spec_criteria
           (mkCriteria (PStr (lit "copenhagen")) (PInt 25000) (PInt 1))
           [untitled; nice_flat] 19000 25000 2 1);
    try reflexivity; try lia.
  vm_compute. right. left. reflexivity.
Defined.

Lemma extracted_listing_unmatchable (criteria : HousingCriteria)
    (title price size rooms url : pyval) :
  match price with PNone | PFloat _ => True | _ => False end ->
  (rooms = PNone \/ exists z, rooms = PInt z) ->
  unmatchable criteria ->
  _matches_criteria (listing_of title price (location criteria) size rooms url) criteria
  = false.
Proof.
  intros Hprice Hrooms Hnever.
  destruct (_matches_criteria _ criteria) eqn:Hm; [| reflexivity].
  apply matcher_accepts_iff in Hm.
  change (dict_get (listing_of title price (location criteria) size rooms url)
            (lit "price_dkk")) with price in Hm.
  change (dict_get (listing_of title price (location criteria) size rooms url)
            (lit "bedrooms")) with rooms in Hm.
  change (dict_get (listing_of title price (location criteria) size rooms url)
            (lit "location")) with (location criteria) in Hm.
  destruct Hm as [Hp [Hr [Hl [Hgt Hlt]]]].
  destruct Hnever as [Hmax | [Hmin | Hloc]].
  - destruct price; try contradiction; try discriminate Hp.
    unfold py_gt, py_compare in Hgt. cbn [as_number] in Hgt.
    rewrite Hmax in Hgt. destruct (max_price criteria); discriminate Hgt.
  - destruct Hrooms as [-> | [z ->]]; [discriminate Hr |].
    unfold py_lt, py_compare in Hlt. cbn [as_number] in Hlt.
    rewrite Hmin in Hlt. destruct (min_bedrooms criteria); discriminate Hlt.
  - rewrite Hloc in Hl. discriminate Hl.
Qed.

(** X10. When the price ceiling or the room minimum of the criteria is
    not a number (a string, or missing), or the location is empty or
    missing, a search returns no listing, whatever was crawled. *)
Theorem unmatchable_criteria_return_nothing (rt : runtime)
    (criteria : HousingCriteria) (crawl_data : list fragment) :
  unmatchable criteria ->
  _process_housing_results rt crawl_data criteria = [].
Proof.
  intros Hnever. rewrite process_flat_map. apply flat_map_nothing.
  intros item. unfold accepted.
  destruct (extract_listing rt criteria item) as [[[listing url] |] | e] eqn:E;
    try reflexivity.
  destruct (extract_listing_entries rt criteria item listing url E)
    as [t [price [size [rooms [link [_ [_ [Hp [Hr [_ [_ ->]]]]]]]]]]].
  rewrite (extracted_listing_unmatchable criteria _ price size rooms link
             (parse_price_shape rt _ price Hp) (parse_rooms_shape rt _ rooms Hr)
             Hnever).
  reflexivity.
Qed.

Lemma unmatchable_criteria_return_nothing_witness :
  unmatchable quoted_criteria /\
  _process_housing_results latin1_runtime [nice_flat; untitled] quoted_criteria = [].
Proof.
  assert (Hnever : unmatchable quoted_criteria) by (left; reflexivity).
  split; [exact Hnever |].
  exact (unmatchable_criteria_return_nothing latin1_runtime quoted_criteria
           [nice_flat; untitled] Hnever).
Defined.

(** ** Whole prices

    A price below 2^53 is a float that holds exactly the integer its
    digits spell. *)

Lemma digits2_pos_lower (m : positive) :
  (2 ^ (Zpos (digits2_pos m) - 1) <= Zpos m)%Z.
Proof.
  induction m as [m IH | m IH |]; cbn [digits2_pos].
  - rewrite Pos2Z.inj_succ.
    replace (Z.succ (Zpos (digits2_pos m)) - 1)%Z
      with (Z.succ (Zpos (digits2_pos m) - 1)) by lia.
    rewrite Z.pow_succ_r by lia. lia.
  - rewrite Pos2Z.inj_succ.
    replace (Z.succ (Zpos (digits2_pos m)) - 1)%Z
      with (Z.succ (Zpos (digits2_pos m) - 1)) by lia.
    rewrite Z.pow_succ_r by lia. lia.
  - cbn. lia.
Qed.

Lemma iter_xO_value (m k : positive) :
  Zpos (Pos.iter xO m k) = (Zpos m * 2 ^ Zpos k)%Z /\
  digits2_pos (Pos.iter xO m k) = (digits2_pos m + k)%positive.
Proof.
  induction k as [| k [IHv IHd]] using Pos.peano_ind.
  - cbn [Pos.iter]. split; [lia | cbn [digits2_pos]; lia].
  - rewrite Pos.iter_succ. split.
    + rewrite Pos2Z.inj_xO, IHv, Pos2Z.inj_succ, Z.pow_succ_r by lia. lia.
    + cbn [digits2_pos]. rewrite IHd. lia.
Qed.

Lemma float_of_Z_small (m : positive) :
  (Zpos m < 2 ^ 53)%Z ->
  exists mz k,
    float_of_Z (Zpos m) = S754_finite false mz (- k) /\
    (0 <= k)%Z /\
    Zpos mz = (Zpos m * 2 ^ k)%Z.
Proof.
  intros Hm.
  pose proof (digits2_pos_lower m) as Hlo.
  assert (Hd : (Zpos (digits2_pos m) <= 53)%Z).
  { destruct (Z_le_gt_dec (Zpos (digits2_pos m)) 53) as [H | H]; [exact H |].
    exfalso.
    assert ((2 ^ 53 <= 2 ^ (Zpos (digits2_pos m) - 1))%Z)
      by (apply Z.pow_le_mono_r; lia).
    lia. }
  unfold float_of_Z, binary_normalize, binary_round.
  assert (Halign : exists mz,
             shl_align m 0 (fexp prec emax (Zpos (digits2_pos m) + 0))
             = (mz, (Zpos (digits2_pos m) - 53)%Z) /\
             Zpos mz = (Zpos m * 2 ^ (53 - Zpos (digits2_pos m)))%Z /\
             Zpos (digits2_pos mz) = 53%Z).
  { unfold shl_align, fexp, emin, prec, emax.
    replace (Z.max (Zpos (digits2_pos m) + 0 - 53) (3 - 1024 - 53) - 0)%Z
      with (Zpos (digits2_pos m) - 53)%Z by lia.
    replace (Z.max (Zpos (digits2_pos m) + 0 - 53) (3 - 1024 - 53))%Z
      with (Zpos (digits2_pos m) - 53)%Z by lia.
    destruct (Zpos (digits2_pos m) - 53)%Z as [| p | p] eqn:Hdiff; [| lia |].
    - exists m. replace (53 - Zpos (digits2_pos m))%Z with 0%Z by lia.
      repeat split; lia.
    - exists (Pos.iter xO m p).
      destruct (iter_xO_value m p) as [Hv Hdig].
      replace (53 - Zpos (digits2_pos m))%Z with (Zpos p) by lia.
      repeat split; [exact Hv | rewrite Hdig; lia]. }
  destruct Halign as [mz [-> [Hmz Hdig]]].
  exists mz, (53 - Zpos (digits2_pos m))%Z.
  split; [| split; [lia | exact Hmz]].
  unfold binary_round_aux, shr_fexp. cbn [Zdigits2]. rewrite Hdig.
  assert (Hshift : (fexp prec emax (53 + (Zpos (digits2_pos m) - 53))
                    - (Zpos (digits2_pos m) - 53))%Z = 0%Z).
  { unfold fexp, emin, prec, emax. lia. }
  rewrite Hshift.
  cbn [shr shr_record_of_loc loc_of_shr_record shr_m round_nearest_even Zdigits2].
  rewrite Hdig, Hshift. cbn [shr shr_m].
  unfold emax, prec.
  replace (Zpos (digits2_pos m) - 53 <=? 1024 - 53)%Z with true
    by (symmetry; apply Z.leb_le; lia).
  f_equal. lia.
Qed.

Lemma compare_scaled (n m p : Z) :
  (0 < p)%Z -> Z.compare (n * p) (m * p) = Z.compare n m.
Proof.
  intros Hp.
  destruct (Z.compare_spec n m) as [-> | H | H].
  - apply Z.compare_refl.
  - apply Z.compare_lt_iff. nia.
  - apply Z.compare_gt_iff. nia.
Qed.

Lemma float_of_Z_compare (n z : Z) :
  (0 <= n < 2 ^ 53)%Z -> float_compare_int (float_of_Z n) z = Some (Z.compare n z).
Proof.
  intros [Hlo Hhi]. destruct n as [| m | m]; [reflexivity | | lia].
  destruct (float_of_Z_small m Hhi) as [mz [k [-> [Hk Hmz]]]].
  cbn [float_compare_int cond_Zopp]. f_equal.
  destruct (Z.leb 0 (- k)) eqn:Hzero.
  - apply Z.leb_le in Hzero. assert (k = 0%Z) by lia. subst k.
    rewrite Hmz, Z.pow_0_r, !Z.mul_1_r. reflexivity.
  - rewrite Z.opp_involutive, Hmz.
    apply compare_scaled. apply Z.pow_pos_nonneg; lia.
Qed.

Lemma float_of_Z_rounds_back (m : positive) (mz : positive) (k : Z) :
  (0 <= k)%Z -> Zpos mz = (Zpos m * 2 ^ k)%Z -> round_half_even mz (- k) = Zpos m.
Proof.
  intros Hk Hmz. unfold round_half_even.
  destruct (Z.leb 0 (- k)) eqn:Hzero.
  - apply Z.leb_le in Hzero. assert (k = 0%Z) by lia. subst k.
    cbn [Z.opp]. rewrite Hmz, Z.pow_0_r. lia.
  - rewrite Z.opp_involutive, Hmz.
    assert (Hpow : (0 < 2 ^ k)%Z) by (apply Z.pow_pos_nonneg; lia).
    rewrite Z.div_mul, Z.mod_mul by lia. cbv zeta.
    replace (2 * 0)%Z with 0%Z by lia.
    destruct (Z.compare_spec 0 (2 ^ k)); [lia | reflexivity | lia].
Qed.

Lemma float_of_Z_truthy (n : Z) :
  (0 <= n < 2 ^ 53)%Z -> py_bool (PFloat (float_of_Z n)) = negb (Z.eqb n 0).
Proof.
  intros [Hlo Hhi]. destruct n as [| m | m]; [reflexivity | | lia].
  destruct (float_of_Z_small m Hhi) as [mz [k [-> _]]]. reflexivity.
Qed.

(** X11. For a listing whose price holds a whole number [n] of kroner
    below 2^53 and whose room count is an integer, against integer
    criteria, the matcher decides on the integers: it accepts exactly when
    [n] and the room count are not zero, the location is not empty,
    [n <= max_price] and [min_bedrooms <= rooms]. *)
Theorem whole_prices_are_compared_exactly (listing : dict)
    (criteria : HousingCriteria) (n rooms mp mb : Z) :
  (0 <= n < 2 ^ 53)%Z ->
  dict_get listing (lit "price_dkk") = PFloat (float_of_Z n) ->
  dict_get listing (lit "bedrooms") = PInt rooms ->
  max_price criteria = PInt mp ->
  min_bedrooms criteria = PInt mb ->
  _matches_criteria listing criteria
  = negb (Z.eqb n 0) && negb (Z.eqb rooms 0)
    && py_bool (dict_get listing (lit "location"))
    && Z.leb n mp && Z.leb mb rooms.
Proof.
  intros Hn Hprice Hrooms Hmp Hmb. matcher_unfold.
  rewrite Hprice, Hrooms, Hmp, Hmb, (float_of_Z_truthy n Hn). cbn [py_bool].
  destruct (negb (Z.eqb n 0)); [| reflexivity].
  destruct (negb (Z.eqb rooms 0)); [| reflexivity].
  destruct (py_bool (dict_get listing (lit "location"))); [| reflexivity].
  cbn [andb negb].
  unfold py_gt, py_lt, py_compare. cbn [as_number number_compare bind].
  rewrite (float_of_Z_compare n mp Hn). unfold Z.leb.
  destruct (Z.compare n mp); cbn [bind andb]; try reflexivity;
    rewrite (Z.compare_antisym rooms mb); destruct (Z.compare rooms mb); reflexivity.
Qed.

Lemma whole_prices_are_compared_exactly_witness :
  _matches_criteria (priced_listing 19000 2) spec_criteria = true /\
  _matches_criteria (priced_listing 19001 2) spec_criteria = false.
Proof.
  split.
  - rewrite (whole_prices_are_compared_exactly (priced_listing 19000 2) spec_criteria
               19000 2 19000 2); [reflexivity | lia | reflexivity ..].
  - rewrite (whole_prices_are_compared_exactly (priced_listing 19001 2) spec_criteria
               19001 2 19000 2); [reflexivity | lia | reflexivity ..].
Defined.

(** ** Printing and reading back *)

Lemma uint_digits_ascii (d : Decimal.uint) :
  Forall (fun c => (48 <= c <= 57)%N) (uint_digits d).
Proof.
  induction d; cbn [uint_digits]; constructor; try assumption; lia.
Qed.

Lemma digits_value_acc (rt : runtime) (d : Decimal.uint) :
  reads_ascii_digits rt ->
  forall acc,
    fold_left
      (fun acc c =>
         match acc, uni_decimal rt c with
         | Some a, Some d => Some (10 * a + d)%Z
         | _, _ => None
         end)
      (uint_digits d) (Some (Zpos acc))
    = Some (Zpos (Pos.of_uint_acc d acc)).
Proof.
  intros Hrt. induction d; intros acc; cbn [uint_digits fold_left Pos.of_uint_acc];
    try reflexivity;
    rewrite (Hrt _) by lia; rewrite <- IHd; do 2 f_equal; cbn [Z.of_N]; lia.
Qed.

Lemma digits_value_uint (rt : runtime) (d : Decimal.uint) :
  reads_ascii_digits rt ->
  digits_value rt (uint_digits d) = Some (Z.of_N (Pos.of_uint d)).
Proof.
  intros Hrt. unfold digits_value.
  induction d; cbn [uint_digits fold_left Pos.of_uint]; try reflexivity;
    rewrite (Hrt _) by lia;
    first [ exact IHd
          | cbn [Z.of_N]; rewrite <- (digits_value_acc rt d Hrt); reflexivity ].
Qed.

Lemma py_int_of_str (rt : runtime) (z : Z) :
  reads_ascii_digits rt -> (0 <= z)%Z -> py_int rt (str_of_Z z) = Ok z.
Proof.
  intros Hrt Hz. destruct z as [| p | p]; [| | lia].
  - unfold py_int, digits_value. cbn [str_of_Z lit list_ascii_of_string map fold_left].
    change (N_of_ascii "0") with 48%N. rewrite (Hrt 48%N) by lia. reflexivity.
  - unfold py_int. cbn [str_of_Z].
    rewrite (digits_value_uint rt _ Hrt), DecimalPos.Unsigned.of_to.
    cbn [Z.of_N].
    destruct (uint_digits (Pos.to_uint p)) eqn:E; [| reflexivity].
    pose proof (digits_value_uint rt (Pos.to_uint p) Hrt) as H.
    rewrite E, DecimalPos.Unsigned.of_to in H. discriminate H.
Qed.

Lemma replace_char_filter (old : char) (s : str) :
  replace_char old [] s = filter (fun c => negb (N.eqb c old)) s.
Proof.
  unfold replace_char. induction s as [| c s IH]; cbn [flat_map filter].
  - reflexivity.
  - rewrite IH. destruct (N.eqb c old); reflexivity.
Qed.

Lemma group_rev_filter (keep : char -> bool) (ds : str) :
  keep 44%N = false -> Forall (fun c => keep c = true) ds ->
  forall k, filter keep (group_rev k ds) = ds.
Proof.
  intros Hcomma. induction 1 as [| d ds Hd _ IH]; intros k; cbn [group_rev].
  - reflexivity.
  - destruct (Nat.eqb k 3); cbn [filter]; rewrite ?Hcomma, Hd, IH; reflexivity.
Qed.

Lemma group_thousands_filter (keep : char -> bool) (ds : str) :
  keep 44%N = false -> Forall (fun c => keep c = true) ds ->
  filter keep (group_thousands ds) = ds.
Proof.
  intros Hcomma Hds. unfold group_thousands.
  rewrite filter_rev, group_rev_filter; [apply rev_involutive | exact Hcomma |].
  apply Forall_rev. exact Hds.
Qed.

(** Taking the separators out of a grouped number gives its digits. *)
Lemma strip_grouped (ds : str) :
  Forall (fun c => (48 <= c <= 57)%N) ds ->
  replace_char 46%N [] (replace_char 44%N [] (group_thousands ds)) = ds.
Proof.
  intros Hds. rewrite !replace_char_filter.
  rewrite group_thousands_filter.
  - apply forallb_filter_id. apply forallb_forall. intros c Hc.
    pose proof (proj1 (Forall_forall _ ds) Hds c Hc) as Hr. cbv beta in Hr.
    apply negb_true_iff, N.eqb_neq. lia.
  - reflexivity.
  - eapply Forall_impl; [| exact Hds]. intros c Hc. cbv beta in *.
    apply negb_true_iff, N.eqb_neq. lia.
Qed.

Lemma float_comma_0f_whole (n : Z) :
  (0 <= n < 2 ^ 53)%Z ->
  float_comma_0f (float_of_Z n) = group_thousands (str_of_Z n).
Proof.
  intros [Hlo Hhi]. destruct n as [| m | m]; [reflexivity | | lia].
  destruct (float_of_Z_small m Hhi) as [mz [k [-> [Hk Hmz]]]].
  cbn [float_comma_0f app]. rewrite (float_of_Z_rounds_back m mz k Hk Hmz).
  reflexivity.
Qed.

Lemma str_of_Z_ascii (n : Z) :
  (0 <= n)%Z -> Forall (fun c => (48 <= c <= 57)%N) (str_of_Z n).
Proof.
  intros Hn. destruct n as [| p | p]; [| | lia].
  - repeat constructor; cbn; lia.
  - apply uint_digits_ascii.
Qed.

(** X12. A whole price below 2^53 is printed as its digits, grouped in
    threes by commas; and what is printed, the extractor's own price
    conversion reads back as the same price. Likewise a room count that is
    printed converts back to itself. *)
Theorem printed_price_reads_back (rt : runtime) (n rooms : Z) :
  reads_ascii_digits rt ->
  (0 <= n < 2 ^ 53)%Z ->
  (0 <= rooms)%Z ->
  format_comma_0f (PFloat (float_of_Z n)) = Ok (group_thousands (str_of_Z n)) /\
  parse_price rt (Some (group_thousands (str_of_Z n))) = Ok (PFloat (float_of_Z n)) /\
  parse_rooms rt (Some (py_str rt (PInt rooms))) = Ok (PInt rooms).
Proof.
  intros Hrt Hn Hrooms. split; [| split].
  - cbn [format_comma_0f]. rewrite (float_comma_0f_whole n Hn). reflexivity.
  - cbn [parse_price]. rewrite (strip_grouped _ (str_of_Z_ascii n (proj1 Hn))).
    unfold py_float. rewrite (py_int_of_str rt n Hrt (proj1 Hn)). reflexivity.
  - cbn [parse_rooms py_str]. rewrite (py_int_of_str rt rooms Hrt Hrooms). reflexivity.
Qed.

Lemma latin1_reads_ascii_digits : reads_ascii_digits latin1_runtime.
Proof.
  intros c Hc. cbn [uni_decimal latin1_runtime]. unfold latin1_decimal.
  replace (N.leb 48 c) with true by (symmetry; apply N.leb_le; lia).
  replace (N.leb c 57) with true by (symmetry; apply N.leb_le; lia).
  reflexivity.
Qed.

Lemma printed_price_reads_back_witness :
  format_comma_0f (PFloat (float_of_Z 1234567)) = Ok (lit "1,234,567") /\
  parse_price latin1_runtime (Some (lit "1,234,567")) = Ok (PFloat (float_of_Z 1234567)) /\
  parse_rooms latin1_runtime (Some (lit "3")) = Ok (PInt 3).
Proof.
  apply (printed_price_reads_back latin1_runtime 1234567 3
           latin1_reads_ascii_digits); lia.
Defined.

(** ** The query interpreter *)

(** X13. Building a criteria object from the fields of one gives it
    back: the constructor applied to [vars(criteria)] returns [criteria]. *)
Theorem criteria_from_their_vars (criteria : HousingCriteria) :
  HousingCriteria_init (vars criteria) = Ok criteria.
Proof. destruct criteria. reflexivity. Qed.

Lemma init_needs_known_keys (kwargs : dict) (criteria : HousingCriteria) :
  HousingCriteria_init kwargs = Ok criteria ->
  (forall k v, In (k, v) kwargs -> In k field_names) /\
  dict_lookup kwargs (lit "location") = Some (location criteria) /\
  dict_lookup kwargs (lit "max_price") = Some (max_price criteria) /\
  dict_lookup kwargs (lit "min_bedrooms") = Some (min_bedrooms criteria).
Proof.
  unfold HousingCriteria_init.
  destruct (forallb _ kwargs) eqn:Hkeys; [| discriminate].
  destruct (dict_lookup kwargs (lit "location")) as [loc |]; [| discriminate].
  destruct (dict_lookup kwargs (lit "max_price")) as [max_p |]; [| discriminate].
  destruct (dict_lookup kwargs (lit "min_bedrooms")) as [min_b |]; [| discriminate].
  intros [= <-]. split; [| repeat split].
  intros k v Hin.
  pose proof (proj1 (forallb_forall _ kwargs) Hkeys (k, v) Hin) as Hk.
  cbn [fst] in Hk. apply existsb_exists in Hk. destruct Hk as [name [Hname Heq]].
  apply str_eqb_eq in Heq. subst name. exact Hname.
Qed.

(** X14. The interpreter gives criteria only for a reply that has a
    location, a price ceiling and a room minimum and no key that is not a
    field; the three values are taken as they are, whatever their type.
    Every failure, of the call, of the decoding or of the construction,
    leaves as a [ValueError]; with just the three keys the other fields get
    their defaults. *)
Theorem interpreter_needs_three_fields (reply : result dict) :
  (forall criteria,
      parse_reply reply = Ok criteria ->
      exists kwargs,
        reply = Ok kwargs /\
        (forall k v, In (k, v) kwargs -> In k field_names) /\
        dict_lookup kwargs (lit "location") = Some (location criteria) /\
        dict_lookup kwargs (lit "max_price") = Some (max_price criteria) /\
        dict_lookup kwargs (lit "min_bedrooms") = Some (min_bedrooms criteria)) /\
  (forall e, parse_reply reply = Raise e -> e = ValueError) /\
  (forall loc max_p min_b,
      reply = Ok [(lit "location", loc); (lit "max_price", max_p);
                  (lit "min_bedrooms", min_b)] ->
      parse_reply reply = Ok (mkCriteria loc max_p min_b)).
Proof.
  split; [| split].
  - intros criteria. unfold parse_reply.
    destruct reply as [kwargs | e]; cbn [bind]; [| discriminate].
    destruct (HousingCriteria_init kwargs) as [c |] eqn:Hinit; [| discriminate].
    intros [= <-]. exists kwargs. split; [reflexivity |].
    exact (init_needs_known_keys kwargs c Hinit).
  - intros e. unfold parse_reply.
    destruct (bind reply _); [discriminate | now intros [= <-]].
  - intros loc max_p min_b ->. reflexivity.
Qed.

Lemma interpreter_needs_three_fields_witness :
  parse_reply (Ok [(lit "location", PStr (lit "copenhagen"));
                   (lit "max_price", PInt 19000);
                   (lit "min_bedrooms", PInt 2)])
  = Ok spec_criteria /\
  (forall e,
      parse_reply (Ok [(lit "location", PStr (lit "copenhagen"));
                       (lit "max_price", PInt 19000);
                       (lit "rooms", PInt 2)]) = Raise e ->
      e = ValueError).
Proof.
  split.
  - destruct (interpreter_needs_three_fields
                (Ok [(lit "location", PStr (lit "copenhagen"));
                     (lit "max_price", PInt 19000);
                     (lit "min_bedrooms", PInt 2)])) as [_ [_ Hthree]].
    apply (Hthree (PStr (lit "copenhagen")) (PInt 19000) (PInt 2)). reflexivity.
  - apply (interpreter_needs_three_fields
             (Ok [(lit "location", PStr (lit "copenhagen"));
                  (lit "max_price", PInt 19000);
                  (lit "rooms", PInt 2)])).
Defined.

(** X15. A reply without a location, or one whose location is not a
    string, ends the search with the apology and the earlier URL: in the
    first case the agent is untouched, in the second only [last_criteria]
    changes. *)
Theorem search_without_location_apologises (rt : runtime)
    (chat : str -> result dict) (crawl : str -> result (list fragment))
    (self : agent) (query : str) (kwargs : dict) :
  chat query = Ok kwargs ->
  ~ (exists s, dict_lookup kwargs (lit "location") = Some (PStr s)) ->
  fst (search_housing rt (chat_services chat crawl) self query)
  = apology ++ py_str rt (last_url self) /\
  last_url (snd (search_housing rt (chat_services chat crawl) self query))
  = last_url self.
Proof.
  intros Hchat Hloc. unfold search_housing, _execute_search.
  cbn [_parse_query chat_services]. rewrite Hchat.
  destruct (parse_reply (Ok kwargs)) as [criteria |] eqn:Hparse;
    [| split; reflexivity].
  unfold parse_reply in Hparse. cbn [bind] in Hparse.
  destruct (HousingCriteria_init kwargs) as [c |] eqn:Hinit; [| discriminate].
  injection Hparse as ->.
  destruct (init_needs_known_keys kwargs criteria Hinit) as [_ [Hl _]].
  unfold construct_search_url.
  destruct (location criteria) as [| | | | s] eqn:Hc; cbn [py_lower bind];
    try (split; reflexivity).
  exfalso. apply Hloc. exists s. exact Hl.
Qed.

Lemma search_without_location_apologises_witness :
  fst (search_housing latin1_runtime
         (chat_services
            (fun _ => Ok [(lit "location", PNone); (lit "max_price", PInt 19000);
                          (lit "min_bedrooms", PInt 2)])
            (fun _ => Ok [nice_flat]))
         new_agent (lit "two rooms under 19000"))
  = apology ++ lit "None".
Proof.
  apply (search_without_location_apologises latin1_runtime
           (fun _ => Ok [(lit "location", PNone); (lit "max_price", PInt 19000);
                         (lit "min_bedrooms", PInt 2)])
           (fun _ => Ok [nice_flat]) new_agent (lit "two rooms under 19000")
           [(lit "location", PNone); (lit "max_price", PInt 19000);
            (lit "min_bedrooms", PInt 2)]).
  - reflexivity.
  - intros [s Hs]. discriminate Hs.
Defined.

(** ** The set-up *)

Lemma get_env_var_ok (env : environ) (name value : str) :
  _get_env_var env name = Ok value <-> env name = Some value /\ value <> [].
Proof.
  unfold _get_env_var. destruct (env name) as [[| c v] |]; split.
  - discriminate.
  - intros [[= <-] H]. now contradiction H.
  - intros [= <-]. split; [reflexivity | discriminate].
  - intros [[= <-] _]. reflexivity.
  - discriminate.
  - intros [H _]. discriminate H.
Qed.

(** X16. The clients are built only from keys found in the environment
    and not empty: a set-up that succeeds has read both keys and passed
    each to its constructor, and a Firecrawl key that is unset or empty
    ends the set-up with a [ValueError] before anything is constructed. *)
Theorem clients_need_both_keys {F O : Type} (env : environ)
    (FirecrawlApp : str -> result F) (OpenAI : str -> result O) :
  (forall firecrawl openai,
      _init_clients env FirecrawlApp OpenAI = Ok (firecrawl, openai) ->
      exists api_key openai_key,
        env (lit "FIRECRAWL_API_KEY") = Some api_key /\ api_key <> [] /\
        env (lit "OPENAI_API_KEY") = Some openai_key /\ openai_key <> [] /\
        FirecrawlApp api_key = Ok firecrawl /\
        OpenAI openai_key = Ok openai) /\
  (env (lit "FIRECRAWL_API_KEY") = None \/ env (lit "FIRECRAWL_API_KEY") = Some [] ->
   _init_clients env FirecrawlApp OpenAI = Raise ValueError).
Proof.
  split.
  - intros firecrawl openai. unfold _init_clients.
    destruct (_get_env_var env (lit "FIRECRAWL_API_KEY")) as [k1 |] eqn:H1;
      [| discriminate].
    cbn [bind]. destruct (FirecrawlApp k1) as [f |] eqn:Hf; [| discriminate].
    cbn [bind].
    destruct (_get_env_var env (lit "OPENAI_API_KEY")) as [k2 |] eqn:H2;
      [| discriminate].
    cbn [bind]. destruct (OpenAI k2) as [o |] eqn:Ho; [| discriminate].
    cbn [bind]. intros [= <- <-].
    apply get_env_var_ok in H1. apply get_env_var_ok in H2.
    exists k1, k2. tauto.
  - intros Hkey. unfold _init_clients, _get_env_var.
    destruct Hkey as [-> | ->]; reflexivity.
Qed.

Lemma clients_need_both_keys_witness :
  _init_clients (sample_environ [] (lit "sk-1")) (fun k => Ok k) (fun k => Ok k)
  = Raise ValueError.
Proof.
  apply (clients_need_both_keys (sample_environ [] (lit "sk-1"))
           (fun k => Ok k) (fun k => Ok k)).
  right. reflexivity.
Defined.

(** ** The blocks of a search response *)

(** X17. The block of a returned listing always has the title line, the
    price line and the rooms line; the size line and the link line are
    there exactly when a size other than zero and a link were found. *)
Theorem returned_listing_block (rt : runtime) (criteria : HousingCriteria)
    (i : nat) (title : str) (price : spec_float) (rooms : Z) (size url : pyval) :
  returned_shape criteria
    (listing_of (PStr title) (PFloat price) (location criteria) size (PInt rooms) url) ->
  render_listing rt i
    (listing_of (PStr title) (PFloat price) (location criteria) size (PInt rooms) url)
    []
  = Ok (str_of_nat i ++ lit ". " ++ title ++ [nl]
        ++ lit "   Price: " ++ float_comma_0f price ++ lit " DKK/month" ++ [nl]
        ++ (if py_bool size
            then lit "   Size: " ++ py_str rt size ++ lit " m" ++ [sup2; nl]
            else [])
        ++ lit "   Rooms: " ++ str_of_Z rooms ++ [nl]
        ++ (if py_bool url then lit "   Link: " ++ py_str rt url ++ [nl] else [])
        ++ [nl]).
Proof.
  intros [title' [price' [rooms' [size' [url' [Heq [Hp [Hr _]]]]]]]].
  injection Heq as <- <- <- <- <-.
  unfold render_listing.
  change (dict_get (listing_of (PStr title) (PFloat price) (location criteria)
                      size (PInt rooms) url) (lit "price_dkk")) with (PFloat price).
  change (dict_get (listing_of (PStr title) (PFloat price) (location criteria)
                      size (PInt rooms) url) (lit "size_m2")) with size.
  change (dict_get (listing_of (PStr title) (PFloat price) (location criteria)
                      size (PInt rooms) url) (lit "bedrooms")) with (PInt rooms).
  change (dict_get (listing_of (PStr title) (PFloat price) (location criteria)
                      size (PInt rooms) url) (lit "listing_url")) with url.
  change (dict_get_default
            (listing_of (PStr title) (PFloat price) (location criteria)
               size (PInt rooms) url) (lit "title") (PStr (lit "Unlisted Property")))
    with (PStr title).
  rewrite Hp. cbn [format_comma_0f bind py_str].
  apply Z.eqb_neq in Hr. cbn [py_bool]. rewrite Hr. cbn [negb].
  destruct (py_bool size), (py_bool url); f_equal; rewrite <- ?app_assoc; reflexivity.
Qed.

Lemma returned_listing_block_witness :
  render_listing latin1_runtime 1 (nice_flat_listing (PStr (lit "copenhagen"))) []
  = Ok (lit "1. Nice flat" ++ [nl]
        ++ lit "   Price: 12,500 DKK/month" ++ [nl]
        ++ lit "   Size: 70.0 m" ++ [sup2; nl]
        ++ lit "   Rooms: 3" ++ [nl]
        ++ lit "   Link: /rental-properties/copenhagen/123" ++ [nl]
        ++ [nl]).
Proof.
  apply (returned_listing_block latin1_runtime spec_criteria 1 (lit "Nice flat")
           (float_of_Z 12500) 3 (PFloat (float_of_Z 70)) (PStr nice_flat_link)).
  exists (lit "Nice flat"), (float_of_Z 12500), 3%Z, (PFloat (float_of_Z 70)),
         (PStr nice_flat_link).
  repeat split; try reflexivity.
  - discriminate.
  - right. eexists. reflexivity.
  - right. exists nice_flat_link. split; reflexivity.
Defined.

(** ** One fragment at a time *)

(** X18. Fragments are judged one by one: the result for crawl data put
    together from two parts is the result for the first part followed by
    the result for the second, so a fragment crawled twice is returned
    twice. *)
Theorem results_concatenate (rt : runtime) (criteria : HousingCriteria)
    (first second : list fragment) :
  _process_housing_results rt (first ++ second) criteria
  = _process_housing_results rt first criteria
    ++ _process_housing_results rt second criteria /\
  _process_housing_results rt (first ++ first) criteria
  = _process_housing_results rt first criteria
    ++ _process_housing_results rt first criteria.
Proof. split; apply process_app. Qed.

(** ** A matched price always converts *)

Lemma price_group_tests (rt : runtime) :
  tests_within (fun c => is_decimal rt c \/ c = 44%N \/ c = 46%N) (price_group rt).
Proof.
  assert (Hdigit : forall c,
             match uni_decimal rt c with Some _ => true | None => false end = true ->
             is_decimal rt c \/ c = 44%N \/ c = 46%N).
  { intros c Hc. left. destruct (uni_decimal rt c) as [d |] eqn:E; [| discriminate].
    now exists d. }
  assert (Hcomma : forall c, N.eqb 44 c = true ->
                             is_decimal rt c \/ c = 44%N \/ c = 46%N).
  { intros c Hc. apply N.eqb_eq in Hc. auto. }
  assert (Hdot : forall c, N.eqb 46 c = true ->
                           is_decimal rt c \/ c = 44%N \/ c = 46%N).
  { intros c Hc. apply N.eqb_eq in Hc. auto. }
  unfold price_group, plus, opt, seqs, digit, exact.
  cbn [fold_right tests_within]. tauto.
Qed.

Lemma price_group_starts_with_digit (rt : runtime) (g : str) :
  accepts (price_group rt) g -> exists c g', g = c :: g' /\ is_decimal rt c.
Proof.
  unfold price_group, seqs. cbn [fold_right]. unfold plus at 1.
  intros H. inversion H as [| | r1 r2 u v Hu Hv | | | |]; subst.
  inversion Hu as [| | r1 r2 a b Ha Hb | | | |]; subst.
  inversion Ha as [| p c Hc | | | | |]; subst.
  exists c. eexists. split; [reflexivity |].
  unfold digit in *. destruct (uni_decimal rt c) as [d |] eqn:E; [| discriminate].
  now exists d.
Qed.

(** X19. With a runtime that does not take a comma or a dot for a digit,
    a price the pattern has found always converts: once the separators are
    removed it is a run of digits that starts with the first digit found,
    and the listing gets a float for its price, never [None]. The
    [except ValueError] around the conversion is not taken. *)
Theorem matched_price_converts (rt : runtime) (t g : str) :
  separators_are_no_digits rt ->
  search (price_group rt) (price_tail rt) t = Some g ->
  exists z,
    digits_value rt (replace_char 46%N [] (replace_char 44%N [] g)) = Some z /\
    parse_price rt (Some g) = Ok (PFloat (float_of_Z z)).
Proof.
  intros [Hcomma Hdot] Hg.
  destruct (search_sound _ _ _ _ Hg) as [before [u [rest [_ [Hacc _]]]]].
  destruct (price_group_starts_with_digit rt g Hacc) as [c [g' [-> [d Hd]]]].
  pose proof (accepts_within _ _ _ Hacc (price_group_tests rt)) as Hchars.
  assert (Hc44 : N.eqb c 44 = false).
  { apply N.eqb_neq. intros ->. rewrite Hcomma in Hd. discriminate. }
  assert (Hc46 : N.eqb c 46 = false).
  { apply N.eqb_neq. intros ->. rewrite Hdot in Hd. discriminate. }
  assert (Hdigits : Forall (is_decimal rt)
                      (replace_char 46%N [] (replace_char 44%N [] (c :: g')))).
  { rewrite !replace_char_filter. apply Forall_forall. intros x Hx.
    apply filter_In in Hx. destruct Hx as [Hx H46].
    apply filter_In in Hx. destruct Hx as [Hx H44].
    apply negb_true_iff, N.eqb_neq in H44, H46.
    destruct (proj1 (Forall_forall _ _) Hchars x Hx) as [H | [H | H]];
      [exact H | contradiction | contradiction]. }
  destruct (digits_value_decimal rt _ Hdigits) as [z Hz].
  exists z. split; [exact Hz |].
  cbn [parse_price]. unfold py_float, py_int. rewrite Hz.
  rewrite !replace_char_filter. cbn [filter]. rewrite Hc44. cbn [negb filter].
  rewrite Hc46. reflexivity.
Qed.

Lemma latin1_separators_are_no_digits : separators_are_no_digits latin1_runtime.
Proof. split; reflexivity. Qed.

Lemma matched_price_converts_witness :
  exists z,
    digits_value latin1_runtime
      (replace_char 46%N [] (replace_char 44%N [] (lit "1,234.56"))) = Some z /\
    parse_price latin1_runtime (Some (lit "1,234.56")) = Ok (PFloat (float_of_Z z)).
Proof.
  apply (matched_price_converts latin1_runtime (lit "rent 1,234.56 DKK") (lit "1,234.56")
           latin1_separators_are_no_digits).
  vm_compute. reflexivity.
Defined.

(** ** From the reply to the URL *)

Lemma replace_space_no_space (s : str) : ~ In 32%N (replace_char 32%N (lit "-") s).
Proof.
  unfold replace_char. rewrite in_flat_map. intros [c [_ Hc]].
  destruct (N.eqb c 32) eqn:E.
  - destruct Hc as [H | []]. discriminate H.
  - destruct Hc as [H | []]. subst c. rewrite N.eqb_refl in E. discriminate.
Qed.

(** X20. A reply with just a location, a price ceiling and a room
    minimum gives a URL with the single parameter [max_monthly_rent]; with
    the [property_type] of the prompt's own example the parameter
    [housing_type] follows it. The location segment has no space left in
    it. *)
Theorem reply_to_url (rt : runtime) (loc : str) (max_p min_b : pyval) (kind : str) :
  kind <> lit "all" ->
  (criteria <- parse_reply
     (Ok [(lit "location", PStr loc); (lit "max_price", max_p);
          (lit "min_bedrooms", min_b)]) ;;
   construct_search_url rt criteria)
  = Ok (base_url ++ lit "/rental-properties/"
        ++ replace_char 32%N (lit "-") (str_lower rt loc)
        ++ lit "/" ++ py_str rt min_b ++ lit "-rooms"
        ++ lit "/?max_monthly_rent=" ++ py_str rt max_p) /\
  (criteria <- parse_reply
     (Ok [(lit "location", PStr loc); (lit "max_price", max_p);
          (lit "min_bedrooms", min_b); (lit "property_type", PStr kind)]) ;;
   construct_search_url rt criteria)
  = Ok (base_url ++ lit "/rental-properties/"
        ++ replace_char 32%N (lit "-") (str_lower rt loc)
        ++ lit "/" ++ py_str rt min_b ++ lit "-rooms"
        ++ lit "/?max_monthly_rent=" ++ py_str rt max_p
        ++ lit "&housing_type=" ++ kind) /\
  ~ In 32%N (replace_char 32%N (lit "-") (str_lower rt loc)).
Proof.
  intros Hkind. split; [| split].
  - change (parse_reply (Ok [(lit "location", PStr loc); (lit "max_price", max_p);
                             (lit "min_bedrooms", min_b)]))
      with (Ok (mkCriteria (PStr loc) max_p min_b)).
    cbn [bind]. unfold construct_search_url. cbn [location mkCriteria py_lower bind].
    f_equal. unfold attach_params, search_params.
    cbn [property_type min_size_m2 max_price min_bedrooms mkCriteria py_bool].
    change (py_ne_str (PStr (lit "all")) (lit "all")) with false.
    cbv iota. cbn [join]. rewrite <- ?app_assoc. reflexivity.
  - change (parse_reply (Ok [(lit "location", PStr loc); (lit "max_price", max_p);
                             (lit "min_bedrooms", min_b);
                             (lit "property_type", PStr kind)]))
      with (Ok {| location := PStr loc; max_price := max_p; min_bedrooms := min_b;
                  property_type := PStr kind;
                  min_size_m2 := PNone; max_size_m2 := PNone; furnished := PNone;
                  immediate_availability := PNone; pets_allowed := PNone |}).
    cbn [bind]. unfold construct_search_url. cbn [location py_lower bind].
    f_equal. unfold attach_params, search_params.
    cbn [property_type min_size_m2 max_price min_bedrooms py_bool py_ne_str py_str].
    assert (Hne : str_eqb kind (lit "all") = false).
    { destruct (str_eqb kind (lit "all")) eqn:E; [| reflexivity].
      apply str_eqb_eq in E. contradiction. }
    rewrite Hne. cbn [negb app join]. rewrite <- ?app_assoc. reflexivity.
  - apply replace_space_no_space.
Qed.

Lemma reply_to_url_witness :
  (criteria <- parse_reply
     (Ok [(lit "location", PStr (lit "copenhagen")); (lit "max_price", PInt 19000);
          (lit "min_bedrooms", PInt 2);
                  (lit "property_type", PStr (lit "apartment"))]) ;;
   construct_search_url latin1_runtime criteria)
  = Ok (lit "https://www.boligportal.dk/en/rental-properties/copenhagen/2-rooms/?max_monthly_rent=19000&housing_type=apartment").
Proof.
  destruct (reply_to_url latin1_runtime (lit "copenhagen") (PInt 19000) (PInt 2)
              (lit "apartment")) as [_ [Hkind _]].
  - discriminate.
  - exact Hkind.
Defined.

(** ** What [re.search] finds *)

Lemma star_run_self (step : str -> list str) (fuel : nat) (s : str) :
  In s (star_run step fuel s).
Proof.
  destruct fuel; cbn [star_run]; [now left |].
  apply in_or_app. right. now left.
Qed.

Lemma star_run_at_least (step : str -> list str) (s : str) (fuel : nat) :
  length s <= fuel -> star_run step fuel s = star_run step (length s) s.
Proof.
  intros Hfuel. replace fuel with (length s + (fuel - length s)) by lia.
  apply star_run_more.
Qed.

Lemma run_complete (r : regex) (u : str) :
  accepts r u -> forall rest, In rest (run r (u ++ rest)).
Proof.
  induction 1 as [| p c Hp | r1 r2 u v _ IHu _ IHv | r1 r2 u _ IH | r1 r2 u _ IH
                  | r | r u v _ IHu _ IHv];
    intros rest.
  - now left.
  - cbn [app run]. rewrite Hp. now left.
  - cbn [run]. apply in_flat_map. exists (v ++ rest). split.
    + rewrite <- app_assoc. apply IHu.
    + apply IHv.
  - cbn [run]. apply in_or_app. left. apply IH.
  - cbn [run]. apply in_or_app. right. apply IH.
  - cbn [app run]. apply star_run_self.
  - destruct u as [| c u]; [apply IHv |].
    cbn [run]. rewrite <- app_assoc. cbn [app length star_run].
    apply in_or_app. left. apply in_flat_map. exists (v ++ rest). split.
    + exact (IHu (v ++ rest)).
    + replace (Nat.ltb (length (v ++ rest)) (S (length (u ++ v ++ rest)))) with true.
      * rewrite star_run_at_least; [exact (IHv rest) |].
        rewrite !length_app. lia.
      * symmetry. apply Nat.ltb_lt. rewrite !length_app. lia.
Qed.

Lemma first_capture_complete (tail : regex) (s : str) (ends : list str) (s' : str) :
  In s' ends -> run tail s' <> [] -> first_capture tail s ends <> None.
Proof.
  induction ends as [| e ends IH]; intros Hin Htail; [destruct Hin |].
  cbn [first_capture]. destruct (run tail e) eqn:He; [| discriminate].
  destruct Hin as [-> | Hin]; [contradiction | exact (IH Hin Htail)].
Qed.

Lemma match_here_iff (group tail : regex) (s : str) :
  match_here group tail s <> None <-> matches_at group tail s.
Proof.
  unfold match_here, matches_at. split.
  - destruct (first_capture tail s (run group s)) as [g |] eqn:E; [| congruence].
    intros _.
    destruct (first_capture_sound group tail s (run group s) g (run_sound group s) E)
      as [t [rest H]].
    exists g, t, rest. exact H.
  - intros [g [t [rest [-> [Hg Ht]]]]].
    apply (first_capture_complete tail _ _ (t ++ rest)).
    + exact (run_complete group g Hg (t ++ rest)).
    + intros Hnone. pose proof (run_complete tail t Ht rest) as Hin.
      rewrite Hnone in Hin. destruct Hin.
Qed.

(** X21. What a pattern search reports is the leftmost occurrence of the
    pattern in the text: the capture is matched by the group and directly
    followed by a match of the rest of the pattern, and the pattern matches
    at no earlier position. It reports nothing exactly when the pattern
    matches at no position of the text. *)
Theorem search_is_leftmost (group tail : regex) (s : str) :
  match search group tail s with
  | Some g =>
      exists before t rest,
        s = before ++ g ++ t ++ rest /\
        accepts group g /\ accepts tail t /\
        forall b1 b2,
          before = b1 ++ b2 -> b2 <> [] ->
          ~ matches_at group tail (b2 ++ g ++ t ++ rest)
  | None =>
      forall before s', s = before ++ s' -> ~ matches_at group tail s'
  end.
Proof.
  induction s as [| c s IH]; cbn [search].
  - destruct (match_here group tail []) as [g |] eqn:E.
    + unfold match_here in E.
      destruct (first_capture_sound group tail [] (run group []) g
                  (run_sound group []) E) as [t [rest [Hs [Hg Ht]]]].
      exists [], t, rest. repeat split; try assumption.
      intros b1 b2 Hb Hne. destruct b1; destruct b2; try discriminate.
      contradiction.
    + intros before s' Hs. destruct before; destruct s'; try discriminate.
      intros Hm. apply match_here_iff in Hm. contradiction.
  - destruct (match_here group tail (c :: s)) as [g |] eqn:E.
    + unfold match_here in E.
      destruct (first_capture_sound group tail (c :: s) (run group (c :: s)) g
                  (run_sound group (c :: s)) E) as [t [rest [Hs [Hg Ht]]]].
      exists [], t, rest. repeat split; try assumption.
      intros b1 b2 Hb Hne. destruct b1; destruct b2; try discriminate.
      contradiction.
    + assert (Hhere : ~ matches_at group tail (c :: s)).
      { intros Hm. apply match_here_iff in Hm. contradiction. }
      destruct (search group tail s) as [g |].
      * destruct IH as [before [t [rest [-> [Hg [Ht Hleft]]]]]].
        exists (c :: before), t, rest. repeat split; try assumption.
        intros b1 b2 Hb Hne. destruct b1 as [| c' b1].
        { cbn [app] in Hb. subst b2. exact Hhere. }
        { injection Hb as -> Hb. exact (Hleft b1 b2 Hb Hne). }
      * intros before s' Hs. destruct before as [| c' before].
        { cbn [app] in Hs. subst s'. exact Hhere. }
        { injection Hs as -> Hs. exact (IH before s' Hs). }
Qed.
